(** * Mock-interview question generator

    A shallow embedding of [questions_generator.py] (the class
    [QuestionsGenerator]) and of the Streamlit script [app.py], with the
    properties the specification states about them.

    Conventions.
    - A Python [str] is a [string] holding its UTF-8 encoding; concatenation
      and [str.join] commute with the encoding, so the byte strings below are
      the encodings of the strings the program builds.
    - A Python [dict] obtained from [json.load] is the list of its items in
      iteration order (the order of the keys in the file).
    - A statement that may raise is a computation in the monad [M]: it maps a
      state to a [result] and the state it leaves behind.  A raised exception
      does not undo the mutations made before it. *)

From Stdlib Require Import String Ascii List ZArith QArith DecimalString Lia.
From stdpp Require Import base list strings gmap.

Open Scope string_scope.
Open Scope list_scope.

(** ** Python primitives *)

Module Py.

(** The one-character string written [\n] in the source. *)
Definition nl : string := String "010" "".

(** [sep.join(items)]. *)
Fixpoint join (sep : string) (items : list string) : string :=
  match items with
  | [] => ""
  | x :: rest =>
      match rest with
      | [] => x
      | _ :: _ => x +:+ sep +:+ join sep rest
      end
  end.

(** The replacement field [{x}] of an f-string, which prints [str(x)] for
    the types below. *)
Class Format (A : Type) := format : A -> string.

#[export] Instance format_str : Format string := fun s => s.

#[export] Instance format_int : Format Z :=
  fun n => NilZero.string_of_int (Z.to_int n).

(** [enumerate(items, start=start)]. *)
Fixpoint enumerate {A : Type} (start : Z) (items : list A) : list (Z * A) :=
  match items with
  | [] => []
  | x :: rest => (start, x) :: enumerate (start + 1) rest
  end.

(** [needle in hay] for strings. *)
Definition contains (needle hay : string) : Prop :=
  exists before after, hay = before +:+ needle +:+ after.

(** The failures of the remote completion call, as the client library
    raises them. *)
Inductive APIError : Type :=
  | APIConnectionError
  | APITimeoutError
  | AuthenticationError
  | RateLimitError
  | APIStatusError (status_code : Z).

(** The exceptions the program can raise. *)
Inductive exn : Type :=
  | FileNotFoundError (filename : string)
  | JSONDecodeError (filename : string)
  | OpenAIError
  | RemoteError (e : APIError)
  | IndexError
  | AttributeError (name : string).

Inductive result (A : Type) : Type :=
  | Return (a : A)
  | Raise (e : exn).
Arguments Return {A} a.
Arguments Raise {A} e.

(** Computations over a mutable state [S] that return or raise. *)
Definition M (S A : Type) : Type := S -> result A * S.

Definition ret {S A : Type} (a : A) : M S A := fun s => (Return a, s).

Definition raise {S A : Type} (e : exn) : M S A := fun s => (Raise e, s).

Definition bind {S A B : Type} (m : M S A) (k : A -> M S B) : M S B :=
  fun s =>
    match m s with
    | (Return a, s') => k a s'
    | (Raise e, s') => (Raise e, s')
    end.

Definition get {S : Type} : M S S := fun s => (Return s, s).

Definition modify {S : Type} (f : S -> S) : M S unit := fun s => (Return tt, f s).

(** [items[i]]. *)
Definition index {S A : Type} (items : list A) (i : nat) : M S A :=
  match items !! i with
  | Some x => ret x
  | None => raise IndexError
  end.

End Py.

Import Py.

Declare Scope py_scope.
Delimit Scope py_scope with py.
Notation "'let!' x ':=' m 'in' k" := (bind m (fun x => k))
  (at level 10, x name, m at level 100, k at level 200) : py_scope.
Notation "m ';;;' k" := (bind m (fun _ => k))
  (at level 100, k at level 200, right associativity) : py_scope.
Open Scope py_scope.

(** ** The completion client (library [openai]) *)

Module openai.

(** The client object; it holds the credential it was built with. *)
Record OpenAI : Type := { api_key : string }.

(** [OpenAI(api_key=key)]: without a credential the constructor raises. *)
Definition new {S : Type} (key : option string) : M S OpenAI :=
  match key with
  | Some k => ret {| api_key := k |}
  | None => raise OpenAIError
  end.

(** One entry of [messages]: a dict with the keys [role] and [content]. *)
Record Message : Type := { role : string; content : string }.

(** The keyword arguments of one [chat.completions.create] call. *)
Record Request : Type := {
  model : string;
  messages : list Message;
  temperature : Q
}.

(** The object [create] returns; [reply] is the attribute [content] of
    the message of a choice. *)
Record ChatCompletionMessage : Type := { reply : string }.
Record Choice : Type := { message : ChatCompletionMessage }.
Record ChatCompletion : Type := { choices : list Choice }.

(** The remote endpoint: what it answers to a call depends on the client
    and on every request made so far, the current one last. *)
Definition Endpoint : Type := OpenAI -> list Request -> APIError + ChatCompletion.

End openai.

(** ** questions_generator.py *)

Import openai.

(** What [json.load] makes of a file. *)
Inductive Json (A : Type) : Type :=
  | Malformed
  | Parsed (data : A).
Arguments Malformed {A}.
Arguments Parsed {A} data.

(** The world outside the process that the program changes: the requests
    it has made to the completion endpoint, oldest first. *)
Record World : Type := { requests : list Request }.

(** The attributes of a [QuestionsGenerator] object. *)
Record QuestionsGenerator : Type := {
  student_id : string;
  user_prompt_template : string;
  system_prompt_template : string;
  conversation_history : list string;
  client : OpenAI
}.

(** A constructed object and the world it runs in. *)
Record State : Type := { self : QuestionsGenerator; world : World }.

(** The object with the history [h]; the other attributes are kept. *)
Definition set_conversation_history (h : list string) (g : QuestionsGenerator)
    : QuestionsGenerator :=
  {| student_id := student_id g;
     user_prompt_template := user_prompt_template g;
     system_prompt_template := system_prompt_template g;
     conversation_history := h;
     client := client g |}.

(** The first entry of every conversation history (line 44). *)
Definition history_header : string := "# 使用者與AI的對話內容".

(** The text of [system_template] before the field
    [{self.user_prompt_template}] (lines 59 to 75). *)
Definition system_preamble : string := "
# 背景設定

1. 你是一位大學教師，為人客氣和善，不會使用命令語氣，進行口頭面試測驗，就像語音對話的習慣一樣，一次問一個問題。

2. 你講授「Python - 程式設計」課程，你會接收到學生詢問的很多問題，你要根據這些問題歷史去評估學生的知識遷移的程度。

3. 現在請與學生以對話方式進行口頭面試測驗，目標為評估學生「根據問題將Python或其他程式語言或其他知識技能，進行知識轉化的過程以及知識遷移之程度與能力」。整個口頭面試測驗過程將分為兩個階段，一次問一個問題。

    3.1. 第一階段：說明本問卷的目的，解釋「什麼是遷移學習」。接著一次問一個題目，分別詢問學生的資本資訊：姓名、學號、科系、年級等基本資料。
    
    3.2. 第二階段：一次問一個問題，問題具有接續性，請以大約10個開放式申論問答題，藉由學生的回答，評估學生的知識遷移程度與能力，你將發揮好奇心，透過學生的回答，進一步詢問更詳細的內容。
    
學生可以隨時停止口頭面試測驗，口頭面試測驗結束後，請明確告知口試結束，並根據之前學生回覆內容給予正面的講評與鼓勵，以鼓勵學生繼續追求知識。

4. 你會收到使用者與AI的對話內容，請根據對話內容，進行下一個問題的提問，一次問一個問題。

".

(** The literal temperature of line 167. *)
Definition TEMPERATURE : Q := 0.6%Q.

Section Environment.

(** The types of the values in the two data files, with the way an
    f-string prints them. *)
Context {V Qn : Type} `{!Format V} `{!Format Qn}.

(** The files as [open] and [json.load] see them, by path: an absent path
    is a missing file. *)
Variable midterm_files : gmap string (Json (list (string * V))).
Variable mygpt_files : gmap string (Json (list (string * list Qn))).

(** [os.getenv("OPENAI_API_KEY")] once [load_dotenv()] has run. *)
Variable OPENAI_API_KEY : option string.

(** The endpoint behind [client.chat.completions]. *)
Variable endpoint : Endpoint.

(** [with open(path) as file: json.load(file)]. *)
Definition load {A S : Type} (files : gmap string (Json A)) (path : string) : M S A :=
  match files !! path with
  | None => raise (FileNotFoundError path)
  | Some Malformed => raise (JSONDecodeError path)
  | Some (Parsed data) => ret data
  end.

(** Line 121: the f-string added for one item. *)
Definition midterm_line (key : string) (value : V) : string :=
  key +:+ ": " +:+ format value +:+ nl.

(** Lines 120 and 121: the loop over [midterm.items()], from [result]. *)
Definition midterm_loop (midterm : list (string * V)) (result : string) : string :=
  fold_left (fun result '(key, value) => result +:+ midterm_line key value)
    midterm result.

(** Lines 108 to 123; the method reads [self.student_id] only. *)
Definition _get_midterm (student_id : string) : M World string :=
  let result := "" in
  let! midterm := load midterm_files ("midterm/" +:+ student_id +:+ ".json") in
  ret (midterm_loop midterm result).

(** Line 138: the f-string that opens a category. *)
Definition category_heading (key : string) : string := key +:+ ":" +:+ nl +:+ nl.

(** Line 141: the f-string added for one question. *)
Definition question_line (idx : Z) (question : Qn) : string :=
  format idx +:+ ". " +:+ format question +:+ nl.

(** Lines 140 and 141: the loop over [enumerate(value, start=1)]. *)
Definition questions_loop (value : list Qn) (result : string) : string :=
  fold_left (fun result '(idx, question) => result +:+ question_line idx question)
    (enumerate 1 value) result.

(** Lines 137 to 143: the loop over [mygpt.items()], from [result]. *)
Definition mygpt_loop (mygpt : list (string * list Qn)) (result : string) : string :=
  fold_left
    (fun result '(key, value) =>
       let result := result +:+ category_heading key in
       let result := questions_loop value result in
       result +:+ nl)
    mygpt result.

(** Lines 125 to 145; the method reads [self.student_id] only. *)
Definition _get_mygpt (student_id : string) : M World string :=
  let result := "" in
  let! mygpt := load mygpt_files ("mygpt/" +:+ student_id +:+ ".json") in
  ret (mygpt_loop mygpt result).

(** Lines 91 to 97: the f-string [user_template]. *)
Definition user_template (midterm mygpt : string) : string :=
  nl +:+ "        # 期中考弱項" +:+ nl +:+ "        " +:+ midterm +:+ nl +:+ nl
  +:+ "        # 問題" +:+ nl +:+ "        " +:+ mygpt +:+ nl +:+ "        ".

(** Lines 81 to 99; the method reads [self.student_id] only. *)
Definition _initialize_user_prompt_template (student_id : string) : M World string :=
  let! midterm := _get_midterm student_id in
  let! mygpt := _get_mygpt student_id in
  ret (user_template midterm mygpt).

(** Lines 52 to 79; the method reads [self.user_prompt_template] only. *)
Definition _initialize_system_prompt_template (user_prompt_template : string) : string :=
  system_preamble +:+ user_prompt_template +:+ nl.

(** Lines 37 to 50. *)
Definition __init__ (student_id : string) : M World QuestionsGenerator :=
  let! user_prompt_template := _initialize_user_prompt_template student_id in
  let system_prompt_template := _initialize_system_prompt_template user_prompt_template in
  let conversation_history := [history_header] in
  let! client := openai.new OPENAI_API_KEY in
  ret {| student_id := student_id;
         user_prompt_template := user_prompt_template;
         system_prompt_template := system_prompt_template;
         conversation_history := conversation_history;
         client := client |}.

(** Lines 101 to 106: [self.conversation_history.append(content)]. *)
Definition _add_conversation_history (content : string) : M State unit :=
  modify (fun st =>
    {| self := set_conversation_history
                 (conversation_history (self st) ++ [content]) (self st);
       world := world st |}).

(** [client.chat.completions.create(model=..., messages=...,
    temperature=...)]: the request reaches the endpoint, which answers with a
    completion or fails; the exception is the library's. *)
Definition create (client : OpenAI) (model : string) (messages : list Message)
    (temperature : Q) : M State ChatCompletion :=
  fun st =>
    let sent :=
      requests (world st)
      ++ [{| model := model; messages := messages; temperature := temperature |}] in
    let st' := {| self := self st; world := {| requests := sent |} |} in
    match endpoint client sent with
    | inl e => (Raise (RemoteError e), st')
    | inr completion => (Return completion, st')
    end.

(** The history as one string, lines joined by [\n]. *)
Definition rendered_history (g : QuestionsGenerator) : string :=
  join nl (conversation_history g).

(** Line 157: [("\n").join(self.conversation_history)]. *)
Definition render : M State string :=
  let! st := get in
  ret (rendered_history (self st)).

(** [_add_conversation_history] called once per turn, in order. *)
Fixpoint add_all (turns : list string) : M State unit :=
  match turns with
  | [] => ret tt
  | turn :: later => _add_conversation_history turn ;;; add_all later
  end.

(** Lines 147 to 171. *)
Definition _get_questions (model : string) : M State string :=
  let! conversation_history := render in
  let! st := get in
  let messages :=
    [ {| role := "system"; content := system_prompt_template (self st) |};
      {| role := "user"; content := conversation_history |} ] in
  let! chat_completion := create (client (self st)) model messages TEMPERATURE in
  let! choice := index (choices chat_completion) 0 in
  _add_conversation_history (reply (message choice)) ;;;
  let! choice := index (choices chat_completion) 0 in
  ret (reply (message choice)).

(** Lines 173 to 186. *)
Definition start_process (user_content : string) : M State string :=
  let model := "gpt-4o" in
  _add_conversation_history user_content ;;;
  let! result := _get_questions model in
  ret result.

(** The life of one session: the object answers one [start_process] call
    per user input, whatever the earlier calls returned or raised. *)
Fixpoint session (inputs : list string) (st : State) : list (result string) * State :=
  match inputs with
  | [] => ([], st)
  | user_content :: later =>
      let '(r, st') := start_process user_content st in
      let '(rs, st'') := session later st' in
      (r :: rs, st'')
  end.

(** The number of calls that returned a reply. *)
Fixpoint replies (rs : list (result string)) : nat :=
  match rs with
  | [] => 0
  | Return _ :: rest => S (replies rest)
  | Raise _ :: rest => replies rest
  end.

(** ** app.py *)

(** [st.session_state]: each key the script uses is absent or holds a
    value.  [widget] is the key of the text input. *)
Record SessionState : Type := {
  generator : option QuestionsGenerator;
  chat_log : option (list (string * string));
  clear_input : option bool;
  user_input : option string;
  widget : option string
}.

(** The state of one browser session and the world around it. *)
Record App : Type := { session_state : SessionState; outside : World }.

Definition new_session : SessionState :=
  {| generator := None; chat_log := None; clear_input := None;
     user_input := None; widget := None |}.

Definition set_generator (v : QuestionsGenerator) (s : SessionState) : SessionState :=
  {| generator := Some v; chat_log := chat_log s; clear_input := clear_input s;
     user_input := user_input s; widget := widget s |}.

Definition set_chat_log (v : list (string * string)) (s : SessionState) : SessionState :=
  {| generator := generator s; chat_log := Some v; clear_input := clear_input s;
     user_input := user_input s; widget := widget s |}.

Definition set_clear_input (v : bool) (s : SessionState) : SessionState :=
  {| generator := generator s; chat_log := chat_log s; clear_input := Some v;
     user_input := user_input s; widget := widget s |}.

Definition set_user_input (v : string) (s : SessionState) : SessionState :=
  {| generator := generator s; chat_log := chat_log s; clear_input := clear_input s;
     user_input := Some v; widget := widget s |}.

Definition set_widget (v : string) (s : SessionState) : SessionState :=
  {| generator := generator s; chat_log := chat_log s; clear_input := clear_input s;
     user_input := user_input s; widget := Some v |}.

(** Reading [st.session_state.name]. *)
Definition getattr {A : Type} (name : string) (field : SessionState -> option A) : M App A :=
  fun app =>
    match field (session_state app) with
    | Some v => (Return v, app)
    | None => (Raise (AttributeError name), app)
    end.

(** Assigning [st.session_state.name = v]. *)
Definition setattr (update : SessionState -> SessionState) : M App unit :=
  modify (fun app =>
    {| session_state := update (session_state app); outside := outside app |}).

(** [if name not in st.session_state: body]. *)
Definition if_not_in {A : Type} (field : SessionState -> option A) (body : M App unit)
    : M App unit :=
  fun app =>
    match field (session_state app) with
    | None => body app
    | Some _ => (Return tt, app)
    end.

(** [QuestionsGenerator(student_id)], run from the script. *)
Definition QuestionsGenerator_new (student_id : string) : M App QuestionsGenerator :=
  fun app =>
    let '(r, w) := __init__ student_id (outside app) in
    (r, {| session_state := session_state app; outside := w |}).

(** A method call on the object [st.session_state.generator]; the object
    in the session state is the one the method mutates. *)
Definition on_generator {A : Type} (method : M State A) : M App A :=
  let! g := getattr "generator" generator in
  fun app =>
    let '(r, st) := method {| self := g; world := outside app |} in
    (r, {| session_state := set_generator (self st) (session_state app);
           outside := world st |}).

(** Lines 9 to 16. *)
Definition process_input : M App unit :=
  let! log := getattr "chat_log" chat_log in
  let! text := getattr "user_input" user_input in
  setattr (set_chat_log (log ++ [("你", text)])) ;;;
  let! _ := getattr "generator" generator in
  let! text := getattr "user_input" user_input in
  let! response := on_generator (start_process text) in
  let! log := getattr "chat_log" chat_log in
  setattr (set_chat_log (log ++ [("AI", response)])) ;;;
  setattr (set_clear_input true).

(** Lines 4 to 7, the callback of the text input. *)
Definition submit : M App unit :=
  let! text := getattr "widget" widget in
  setattr (set_user_input text) ;;;
  setattr (set_widget "") ;;;
  process_input.

(** Line 38: what [st.write] shows for one entry of the chat log. *)
Definition written (entry : string * string) : string :=
  let '(speaker, message) := entry in
  format speaker +:+ ": " +:+ format message.

(** Lines 18 to 38, one run of the script; [clicked] is what [st.button]
    returns in this run, and the result is what the container shows, top
    to bottom.  The text input holds an empty string when first drawn. *)
Definition script (clicked : bool) : M App (list string) :=
  if_not_in generator
    (let! g := QuestionsGenerator_new "111403538" in setattr (set_generator g)) ;;;
  if_not_in chat_log (setattr (set_chat_log [])) ;;;
  if_not_in clear_input (setattr (set_clear_input false)) ;;;
  if_not_in user_input (setattr (set_user_input "開始口試") ;;; process_input) ;;;
  if_not_in widget (setattr (set_widget "")) ;;;
  (if clicked then process_input else ret tt) ;;;
  let! log := getattr "chat_log" chat_log in
  ret (map written log).

(** ** Data used to run the model *)

Definition demo_midterm_files : gmap string (Json (list (string * string))) :=
  {[ "midterm/111403538.json" := Parsed [("recursion", "weak")] ]}.

Definition demo_mygpt_files : gmap string (Json (list (string * list string))) :=
  {[ "mygpt/111403538.json" :=
       Parsed [("loops", ["why use a for-loop?"; "what is an infinite loop?"])] ]}.

(** An endpoint that answers every request with one choice. *)
Definition demo_endpoint : Endpoint :=
  fun _ _ => inr {| choices := [ {| message := {| reply := "請先自我介紹。" |} |} ] |}.

(** An endpoint that cannot be reached. *)
Definition down_endpoint : Endpoint := fun _ _ => inl APIConnectionError.

Definition demo_client : OpenAI := {| api_key := "sk-demo" |}.

Definition demo_generator : QuestionsGenerator :=
  {| student_id := "111403538";
     user_prompt_template := "";
     system_prompt_template := "system";
     conversation_history := [history_header];
     client := demo_client |}.

Definition demo_state : State :=
  {| self := demo_generator; world := {| requests := [] |} |}.

Definition demo_key : option string := Some "sk-demo".

(** The object the constructor builds from the data above. *)
Definition demo_constructed : QuestionsGenerator :=
  {| student_id := "111403538";
     user_prompt_template :=
       user_template ("recursion: weak" +:+ nl)
         ("loops:" +:+ nl +:+ nl +:+ "1. why use a for-loop?" +:+ nl
          +:+ "2. what is an infinite loop?" +:+ nl +:+ nl);
     system_prompt_template :=
       system_preamble
       +:+ user_template ("recursion: weak" +:+ nl)
             ("loops:" +:+ nl +:+ nl +:+ "1. why use a for-loop?" +:+ nl
              +:+ "2. what is an infinite loop?" +:+ nl +:+ nl)
       +:+ nl;
     conversation_history := [history_header];
     client := demo_client |}.

Definition demo_choice : Choice := {| message := {| reply := "請先自我介紹。" |} |}.

(** ** Vocabulary of the statements *)

(** The request of line 164 for the object [g] and the model [model]. *)
Definition request_of (g : QuestionsGenerator) (model : string) : Request :=
  {| model := model;
     messages :=
       [ {| role := "system"; content := system_prompt_template g |};
         {| role := "user"; content := rendered_history g |} ];
     temperature := 0.6%Q |}.

(** The state with a new history and a new list of requests. *)
Definition with_history (h : list string) (sent : list Request) (st : State) : State :=
  {| self := set_conversation_history h (self st); world := {| requests := sent |} |}.

(** One category as the prior-questions loop prints it: the heading, the
    numbered questions, and an empty line. *)
Definition category_section (key : string) (value : list Qn) : string :=
  category_heading key
  +:+ foldr append ""
        (imap (fun i question => question_line (Z.of_nat i + 1) question) value)
  +:+ nl.

(** A text that holds no newline character. *)
Fixpoint one_line (s : string) : Prop :=
  match s with
  | EmptyString => True
  | String c rest => c <> "010"%char /\ one_line rest
  end.

(** The turns added after a rendered history, each behind a newline. *)
Definition turns_text (turns : list string) : string :=
  foldr append "" (map (fun turn => nl +:+ turn) turns).

(** A session state in which the script has run all its guards: every key
    but the widget's is set. *)
Definition ready (g : QuestionsGenerator) (log : list (string * string))
    (cleared : bool) (text : string) (input : option string) : SessionState :=
  {| generator := Some g; chat_log := Some log; clear_input := Some cleared;
     user_input := Some text; widget := input |}.

(** The chat log lists, in order, the texts of the history after the
    header. *)
Definition aligned (s : SessionState) : Prop :=
  exists g log cleared text,
    s = ready g log cleared text (widget s)
    /\ conversation_history g = history_header :: map snd log.

(** The states a run of the script or of the callback can leave: nothing
    set but perhaps the widget, or everything set with the chat log and
    the history aligned. *)
Definition consistent (s : SessionState) : Prop :=
  (generator s = None /\ chat_log s = None /\ clear_input s = None
   /\ user_input s = None)
  \/ aligned s.

(** A result that is not an attribute error. *)
Definition no_attribute_error {A : Type} (r : result A) : Prop :=
  forall name, r <> Raise (AttributeError name).

(** Data files the parser rejects. *)
Definition demo_bad_midterm_files : gmap string (Json (list (string * string))) :=
  {[ "midterm/111403538.json" := Malformed ]}.

Definition demo_bad_mygpt_files : gmap string (Json (list (string * list string))) :=
  {[ "mygpt/111403538.json" := Malformed ]}.

(** An endpoint that answers without a choice. *)
Definition mute_endpoint : Endpoint := fun _ _ => inr {| choices := [] |}.

(** A session with every key set and a text typed in the widget. *)
Definition demo_app : App :=
  {| session_state := ready demo_generator [] false "開始口試" (Some "我叫王小明");
     outside := {| requests := [] |} |}.

(** * Properties *)

(** ** Strings and joins *)

Lemma append_cons (ch : ascii) (a b : string) :
  String ch a +:+ b = String ch (a +:+ b).
Proof. reflexivity. Qed.

Lemma append_assoc (a b c : string) : (a +:+ b) +:+ c = a +:+ (b +:+ c).
Proof.
  induction a as [|ch a IH]; [reflexivity|].
  now rewrite !append_cons, IH.
Qed.

Lemma append_empty_r (a : string) : a +:+ "" = a.
Proof.
  induction a as [|ch a IH]; [reflexivity|].
  now rewrite append_cons, IH.
Qed.

Lemma join_cons (sep x y : string) (rest : list string) :
  join sep (x :: y :: rest) = x +:+ sep +:+ join sep (y :: rest).
Proof. reflexivity. Qed.

(** Appending an item to a non-empty list extends the joined text by the
    separator and the item. *)
Lemma join_snoc (sep x : string) (items : list string) :
  items <> [] -> join sep (items ++ [x]) = join sep items +:+ sep +:+ x.
Proof.
  induction items as [|y items IH]; intros Hne; [congruence|].
  destruct items as [|z items].
  - reflexivity.
  - change ((y :: z :: items) ++ [x]) with (y :: (z :: items ++ [x])).
    rewrite !join_cons.
    change (z :: items ++ [x]) with ((z :: items) ++ [x]).
    rewrite IH by discriminate.
    now rewrite !append_assoc.
Qed.

Lemma join_app_turns (sep : string) (items turns : list string) :
  items <> [] ->
  join sep (items ++ turns)
  = join sep items +:+ foldr append "" (map (fun turn => sep +:+ turn) turns).
Proof.
  revert items. induction turns as [|t turns IH]; intros items Hne.
  - rewrite app_nil_r. simpl. now rewrite append_empty_r.
  - replace (items ++ t :: turns) with ((items ++ [t]) ++ turns)
      by now rewrite <- app_assoc.
    rewrite IH by (destruct items; discriminate).
    rewrite join_snoc by assumption. simpl.
    now rewrite !append_assoc.
Qed.

Lemma join_header (sep header : string) (turns : list string) :
  turns <> [] -> join sep (header :: turns) = header +:+ sep +:+ join sep turns.
Proof. destruct turns; [congruence | reflexivity]. Qed.

(** ** The loops of the two readers *)

(** The midterm loop adds one line per item, in the order of the items. *)
Lemma midterm_loop_lines (midterm : list (string * V)) (result : string) :
  midterm_loop midterm result
  = result +:+ foldr append "" (map (fun '(key, value) => midterm_line key value) midterm).
Proof.
  unfold midterm_loop. revert result.
  induction midterm as [|[key value] midterm IH]; intros result; simpl.
  - now rewrite append_empty_r.
  - rewrite IH. now rewrite append_assoc.
Qed.

Lemma enumerate_loop_lines (value : list Qn) (start : Z) (result : string) :
  fold_left (fun result '(idx, question) => result +:+ question_line idx question)
    (enumerate start value) result
  = result +:+ foldr append ""
      (imap (fun i question => question_line (start + Z.of_nat i) question) value).
Proof.
  revert start result.
  induction value as [|question value IH]; intros start result; simpl.
  - now rewrite append_empty_r.
  - rewrite IH, append_assoc, Z.add_0_r. do 3 f_equal.
    apply imap_ext. intros i q _. simpl. f_equal. lia.
Qed.

(** The questions of a category are numbered from 1, in order. *)
Lemma questions_loop_lines (value : list Qn) (result : string) :
  questions_loop value result
  = result +:+ foldr append ""
      (imap (fun i question => question_line (Z.of_nat i + 1) question) value).
Proof.
  unfold questions_loop. rewrite enumerate_loop_lines. do 2 f_equal.
  apply imap_ext. intros i q _. simpl. f_equal. lia.
Qed.

Lemma mygpt_loop_sections (mygpt : list (string * list Qn)) (result : string) :
  mygpt_loop mygpt result
  = result +:+ foldr append ""
      (map (fun '(key, value) => category_section key value) mygpt).
Proof.
  unfold mygpt_loop. revert result.
  induction mygpt as [|[key value] mygpt IH]; intros result; simpl.
  - now rewrite append_empty_r.
  - rewrite IH, questions_loop_lines. unfold category_section.
    now rewrite !append_assoc.
Qed.

Lemma load_parsed {A S : Type} (files : gmap string (Json A)) (path : string)
    (data : A) (s : S) :
  files !! path = Some (Parsed data) -> load files path s = (Return data, s).
Proof. intros H. unfold load. now rewrite H. Qed.

Lemma load_missing {A S : Type} (files : gmap string (Json A)) (path : string) (s : S) :
  files !! path = None -> load (A:=A) files path s = (Raise (FileNotFoundError path), s).
Proof. intros H. unfold load. now rewrite H. Qed.

Lemma _get_midterm_parsed (student_id : string) (midterm : list (string * V)) (w : World) :
  midterm_files !! ("midterm/" +:+ student_id +:+ ".json") = Some (Parsed midterm) ->
  _get_midterm student_id w = (Return (midterm_loop midterm ""), w).
Proof. intros H. unfold _get_midterm, bind. now rewrite (load_parsed _ _ _ _ H). Qed.

Lemma _get_mygpt_parsed (student_id : string) (mygpt : list (string * list Qn)) (w : World) :
  mygpt_files !! ("mygpt/" +:+ student_id +:+ ".json") = Some (Parsed mygpt) ->
  _get_mygpt student_id w = (Return (mygpt_loop mygpt ""), w).
Proof. intros H. unfold _get_mygpt, bind. now rewrite (load_parsed _ _ _ _ H). Qed.

(** ** One turn *)

Lemma _add_conversation_history_run (content : string) (st : State) :
  _add_conversation_history content st
  = (Return tt,
     with_history (conversation_history (self st) ++ [content])
       (requests (world st)) st).
Proof. destruct st as [g [sent]]. reflexivity. Qed.

(** What [_get_questions] does, by the answer of the endpoint. *)
Lemma _get_questions_run (model : string) (st : State) :
  let req := request_of (self st) model in
  let sent := requests (world st) ++ [req] in
  _get_questions model st =
  match endpoint (client (self st)) sent with
  | inl e => (Raise (RemoteError e), {| self := self st; world := {| requests := sent |} |})
  | inr completion =>
      match choices completion with
      | [] => (Raise IndexError, {| self := self st; world := {| requests := sent |} |})
      | choice :: _ =>
          (Return (reply (message choice)),
           with_history (conversation_history (self st) ++ [reply (message choice)]) sent st)
      end
  end.
Proof.
  destruct st as [g [sent0]]. simpl.
  unfold _get_questions, render, bind, get, ret, create, request_of, TEMPERATURE.
  simpl.
  destruct (endpoint (client g) _) as [e|completion].
  - reflexivity.
  - destruct (choices completion) as [|choice rest]; reflexivity.
Qed.

(** What [start_process] does, by the answer of the endpoint. *)
Lemma start_process_run (user_content : string) (st : State) :
  let g := set_conversation_history
             (conversation_history (self st) ++ [user_content]) (self st) in
  let sent := requests (world st) ++ [request_of g "gpt-4o"] in
  start_process user_content st =
  match endpoint (client (self st)) sent with
  | inl e => (Raise (RemoteError e), {| self := g; world := {| requests := sent |} |})
  | inr completion =>
      match choices completion with
      | [] => (Raise IndexError, {| self := g; world := {| requests := sent |} |})
      | choice :: _ =>
          (Return (reply (message choice)),
           with_history
             (conversation_history (self st) ++ [user_content; reply (message choice)])
             sent st)
      end
  end.
Proof.
  intros g sent. unfold start_process, bind.
  rewrite _add_conversation_history_run, _get_questions_run.
  destruct st as [g0 [sent0]]. simpl in *. fold g. fold sent.
  destruct (endpoint (client g0) sent) as [e|completion]; [reflexivity|].
  destruct (choices completion) as [|choice rest]; [reflexivity|].
  unfold ret, with_history. simpl. now rewrite <- app_assoc.
Qed.

(** C1. A turn whose completion call answers does four things in order:
    the user's text is appended to the history; one request goes out,
    with the system prompt as system message and the history joined by
    newlines (the user's text last) as user message, for the model
    gpt-4o at temperature 0.6; the text of the first choice is appended
    to the history; and that text is returned. *)
Theorem start_process_steps (user_content : string) (st : State)
    (completion : ChatCompletion) (choice : Choice) (others : list Choice) :
  let request :=
    {| model := "gpt-4o";
       messages :=
         [ {| role := "system"; content := system_prompt_template (self st) |};
           {| role := "user";
              content := join nl (conversation_history (self st) ++ [user_content]) |} ];
       temperature := 0.6%Q |} in
  endpoint (client (self st)) (requests (world st) ++ [request]) = inr completion ->
  choices completion = choice :: others ->
  start_process user_content st
  = (Return (reply (message choice)),
     {| self := set_conversation_history
                  (conversation_history (self st)
                   ++ [user_content; reply (message choice)]) (self st);
        world := {| requests := requests (world st) ++ [request] |} |}).
Proof.
  intros request Hanswer Hchoices. rewrite start_process_run.
  change (request_of _ "gpt-4o") with request.
  now rewrite Hanswer, Hchoices.
Qed.

(** C6. When the completion call of a turn fails, [start_process] raises
    the error of the call as it is, after one request and no more, and
    the history it leaves holds the user's text as its last entry: the
    append is not undone. *)
Theorem start_process_remote_failure (user_content : string) (st : State) (e : APIError) :
  let request :=
    {| model := "gpt-4o";
       messages :=
         [ {| role := "system"; content := system_prompt_template (self st) |};
           {| role := "user";
              content := join nl (conversation_history (self st) ++ [user_content]) |} ];
       temperature := 0.6%Q |} in
  endpoint (client (self st)) (requests (world st) ++ [request]) = inl e ->
  start_process user_content st
  = (Raise (RemoteError e),
     {| self := set_conversation_history
                  (conversation_history (self st) ++ [user_content]) (self st);
        world := {| requests := requests (world st) ++ [request] |} |}).
Proof.
  intros request Hfails. rewrite start_process_run.
  change (request_of _ "gpt-4o") with request.
  now rewrite Hfails.
Qed.

(** C4. Every call of [_get_questions] makes exactly one request: its
    messages are two, the system prompt under the role system and the
    history joined by newlines under the role user, with the model asked
    for and the temperature 0.6; when the endpoint answers, the text of its
    first choice is returned. *)
Theorem _get_questions_request (model : string) (st : State) :
  let request :=
    {| model := model;
       messages :=
         [ {| role := "system"; content := system_prompt_template (self st) |};
           {| role := "user"; content := join nl (conversation_history (self st)) |} ];
       temperature := 0.6%Q |} in
  requests (world (snd (_get_questions model st))) = requests (world st) ++ [request]
  /\ forall completion choice others,
       endpoint (client (self st)) (requests (world st) ++ [request]) = inr completion ->
       choices completion = choice :: others ->
       fst (_get_questions model st) = Return (reply (message choice)).
Proof.
  intros request. rewrite _get_questions_run.
  change (request_of (self st) model) with request.
  split.
  - destruct (endpoint _ _) as [e|completion]; [reflexivity|].
    destruct (choices completion); reflexivity.
  - intros completion choice others Hanswer Hchoices.
    now rewrite Hanswer, Hchoices.
Qed.

(** ** The history over a session *)

Lemma _get_questions_extends (model : string) (st : State) :
  exists added,
    conversation_history (self (snd (_get_questions model st)))
    = conversation_history (self st) ++ added.
Proof.
  rewrite _get_questions_run.
  destruct (endpoint _ _) as [e|completion]; simpl.
  - exists []. now rewrite app_nil_r.
  - destruct (choices completion) as [|choice rest]; simpl.
    + exists []. now rewrite app_nil_r.
    + now exists [reply (message choice)].
Qed.

Lemma start_process_extends (user_content : string) (st : State) :
  exists added,
    conversation_history (self (snd (start_process user_content st)))
    = conversation_history (self st) ++ user_content :: added.
Proof.
  rewrite start_process_run.
  destruct (endpoint _ _) as [e|completion]; simpl.
  - now exists [].
  - destruct (choices completion) as [|choice rest]; simpl.
    + now exists [].
    + now exists [reply (message choice)].
Qed.

Lemma session_cons (user_content : string) (later : list string) (st : State) :
  session (user_content :: later) st
  = (fst (start_process user_content st)
       :: fst (session later (snd (start_process user_content st))),
     snd (session later (snd (start_process user_content st)))).
Proof.
  simpl. destruct (start_process user_content st) as [r st'].
  simpl. now destruct (session later st') as [rs st''].
Qed.

Lemma session_extends (inputs : list string) (st : State) :
  exists added,
    conversation_history (self (snd (session inputs st)))
    = conversation_history (self st) ++ added.
Proof.
  revert st. induction inputs as [|user_content later IH]; intros st.
  - exists []. simpl. now rewrite app_nil_r.
  - rewrite session_cons. simpl.
    destruct (IH (snd (start_process user_content st))) as [added2 H2].
    destruct (start_process_extends user_content st) as [added1 H1].
    exists ((user_content :: added1) ++ added2).
    now rewrite H2, H1, <- app_assoc.
Qed.

(** C7. [_add_conversation_history] adds the text as a new last entry: the
    history is one longer and every entry it had stays where it was.  The
    two methods that use it, and so a whole session of [start_process]
    calls, only ever extend the history: the history before is a prefix of
    the history after. *)
Theorem history_append_only :
  (forall (content : string) (st : State),
     let before := conversation_history (self st) in
     let after := conversation_history (self (snd (_add_conversation_history content st))) in
     after = before ++ [content]
     /\ length after = S (length before)
     /\ forall (i : nat) (turn : string), before !! i = Some turn -> after !! i = Some turn)
  /\ (forall (model : string) (st : State),
        conversation_history (self st)
        `prefix_of` conversation_history (self (snd (_get_questions model st))))
  /\ (forall (user_content : string) (st : State),
        conversation_history (self st)
        `prefix_of` conversation_history (self (snd (start_process user_content st))))
  /\ (forall (inputs : list string) (st : State),
        conversation_history (self st)
        `prefix_of` conversation_history (self (snd (session inputs st)))).
Proof.
  split; [|split; [|split]].
  - intros content st. cbv zeta.
    rewrite _add_conversation_history_run. simpl.
    split; [reflexivity|]. split.
    + rewrite length_app. simpl. lia.
    + intros i turn Hi. now apply lookup_app_l_Some.
  - intros model st. destruct (_get_questions_extends model st) as [added ->].
    now apply prefix_app_r.
  - intros user_content st.
    destruct (start_process_extends user_content st) as [added ->].
    now apply prefix_app_r.
  - intros inputs st. destruct (session_extends inputs st) as [added ->].
    now apply prefix_app_r.
Qed.

Lemma add_all_history (turns : list string) (st : State) :
  add_all turns st
  = (Return tt,
     with_history (conversation_history (self st) ++ turns) (requests (world st)) st).
Proof.
  revert st. induction turns as [|turn later IH]; intros st.
  - simpl. rewrite app_nil_r. now destruct st as [[] []].
  - simpl. unfold bind. rewrite _add_conversation_history_run, IH.
    unfold with_history. simpl. now rewrite <- app_assoc.
Qed.

(** C8. After any number of appended turns the rendered history is the
    history before followed by the turns, in the order they were added,
    joined by newlines: every added turn follows the text rendered
    before, each behind one newline.  Rendering changes nothing, so
    rendering twice in a row gives the same text twice. *)
Theorem render_after_appends (turns : list string) (st : State) :
  let st' := snd (add_all turns st) in
  conversation_history (self st') = conversation_history (self st) ++ turns
  /\ fst (render st') = Return (join nl (conversation_history (self st) ++ turns))
  /\ (conversation_history (self st) <> [] ->
        rendered_history (self st')
        = rendered_history (self st)
          +:+ foldr append "" (map (fun turn => nl +:+ turn) turns))
  /\ (let! first := render in let! second := render in ret (first, second)) st'
     = (Return (rendered_history (self st'), rendered_history (self st')), st').
Proof.
  intros st'. subst st'. rewrite add_all_history. simpl.
  repeat split.
  intros Hne. unfold rendered_history. simpl.
  now apply join_app_turns.
Qed.

Lemma join_from_header (turns : list string) (user_content : string) :
  join nl (history_header :: turns ++ [user_content])
  = history_header +:+ nl +:+ join nl (turns ++ [user_content]).
Proof. apply join_header. destruct turns; discriminate. Qed.

(** One turn from a history that starts with the header. *)
Lemma start_process_from_header (user_content : string) (st : State) (turns : list string) :
  conversation_history (self st) = history_header :: turns ->
  let r := fst (start_process user_content st) in
  let st' := snd (start_process user_content st) in
  exists added request,
    conversation_history (self st') = history_header :: turns ++ user_content :: added
    /\ length added = replies [r]
    /\ system_prompt_template (self st') = system_prompt_template (self st)
    /\ requests (world st') = requests (world st) ++ [request]
    /\ messages request
       = [ {| role := "system"; content := system_prompt_template (self st) |};
           {| role := "user";
              content := history_header +:+ nl +:+ join nl (turns ++ [user_content]) |} ].
Proof.
  intros Hh r st'. subst r st'. rewrite start_process_run.
  set (request := request_of _ "gpt-4o").
  assert (Hm : messages request
       = [ {| role := "system"; content := system_prompt_template (self st) |};
           {| role := "user";
              content := history_header +:+ nl +:+ join nl (turns ++ [user_content]) |} ]).
  { subst request. unfold request_of, rendered_history. simpl.
    rewrite Hh. change ((history_header :: turns) ++ [user_content])
      with (history_header :: turns ++ [user_content]).
    now rewrite join_from_header. }
  destruct (endpoint _ _) as [e|completion]; simpl.
  - exists [], request. rewrite Hh. repeat split; assumption.
  - destruct (choices completion) as [|choice rest]; simpl.
    + exists [], request. rewrite Hh. repeat split; assumption.
    + exists [reply (message choice)], request. rewrite Hh. repeat split; assumption.
Qed.

(** A session from a history that starts with the header. *)
Lemma session_from_header (inputs : list string) (st : State) (turns : list string) :
  conversation_history (self st) = history_header :: turns ->
  let rs := fst (session inputs st) in
  let st' := snd (session inputs st) in
  exists added sent,
    conversation_history (self st') = history_header :: turns ++ added
    /\ length added = length inputs + replies rs
    /\ system_prompt_template (self st') = system_prompt_template (self st)
    /\ requests (world st') = requests (world st) ++ sent
    /\ length sent = length inputs
    /\ Forall
         (fun request =>
            exists rest,
              messages request
              = [ {| role := "system"; content := system_prompt_template (self st) |};
                  {| role := "user"; content := history_header +:+ nl +:+ rest |} ])
         sent.
Proof.
  revert st turns. induction inputs as [|user_content later IH]; intros st turns Hh.
  - exists [], []. simpl. rewrite !app_nil_r. repeat split; auto.
  - cbv zeta. rewrite session_cons. simpl fst. simpl snd.
    destruct (start_process_from_header user_content st turns Hh)
      as (added1 & request & Hh1 & Hlen1 & Hsys1 & Hsent1 & Hmsg1).
    cbv zeta in *.
    set (r := fst (start_process user_content st)) in *.
    set (st1 := snd (start_process user_content st)) in *.
    destruct (IH st1 (turns ++ user_content :: added1) Hh1)
      as (added2 & sent2 & Hh2 & Hlen2 & Hsys2 & Hsent2 & Hn2 & Hall2).
    cbv zeta in *.
    exists ((user_content :: added1) ++ added2), (request :: sent2).
    repeat split.
    + rewrite Hh2. now rewrite <- !app_assoc.
    + rewrite length_app. simpl length. rewrite Hlen2, Hlen1.
      simpl. destruct r; simpl; lia.
    + now rewrite Hsys2.
    + rewrite Hsent2, Hsent1. now rewrite <- app_assoc.
    + simpl. now rewrite Hn2.
    + constructor.
      * now exists (join nl (turns ++ [user_content])).
      * rewrite Hsys1 in Hall2. exact Hall2.
Qed.

(** ** Construction *)

(** What the constructor does, by what the two files and the credential
    hold.  The world is never changed. *)
Lemma __init___run (student_id : string) (w : World) :
  __init__ student_id w =
  match midterm_files !! ("midterm/" +:+ student_id +:+ ".json") with
  | None => (Raise (FileNotFoundError ("midterm/" +:+ student_id +:+ ".json")), w)
  | Some Malformed => (Raise (JSONDecodeError ("midterm/" +:+ student_id +:+ ".json")), w)
  | Some (Parsed midterm) =>
      match mygpt_files !! ("mygpt/" +:+ student_id +:+ ".json") with
      | None => (Raise (FileNotFoundError ("mygpt/" +:+ student_id +:+ ".json")), w)
      | Some Malformed => (Raise (JSONDecodeError ("mygpt/" +:+ student_id +:+ ".json")), w)
      | Some (Parsed mygpt) =>
          match OPENAI_API_KEY with
          | None => (Raise OpenAIError, w)
          | Some key =>
              (Return
                 {| student_id := student_id;
                    user_prompt_template :=
                      user_template (midterm_loop midterm "") (mygpt_loop mygpt "");
                    system_prompt_template :=
                      system_preamble
                      +:+ user_template (midterm_loop midterm "") (mygpt_loop mygpt "")
                      +:+ nl;
                    conversation_history := [history_header];
                    client := {| api_key := key |} |}, w)
          end
      end
  end.
Proof.
  unfold __init__, _initialize_user_prompt_template, _get_midterm, _get_mygpt,
    _initialize_system_prompt_template, load, bind.
  destruct (midterm_files !! _) as [[|midterm]|]; try reflexivity.
  destruct (mygpt_files !! _) as [[|mygpt]|]; try reflexivity.
  destruct OPENAI_API_KEY as [key|]; reflexivity.
Qed.

Lemma __init___returns (student_id : string) (w w' : World) (g : QuestionsGenerator) :
  __init__ student_id w = (Return g, w') ->
  w' = w /\ conversation_history g = [history_header].
Proof.
  rewrite __init___run.
  destruct (midterm_files !! _) as [[|midterm]|]; try discriminate.
  destruct (mygpt_files !! _) as [[|mygpt]|]; try discriminate.
  destruct OPENAI_API_KEY as [key|]; try discriminate.
  intros [= <- <-]. now split.
Qed.

(** C10. A constructed object starts with a history of one entry, the
    header.  Over a session of any inputs the header stays the first
    entry; the history holds, after it, one entry per input and one per
    reply returned, so its length is one more than the number of appended
    turns; and every request of the session carries a user message that
    starts with the header line. *)
Theorem header_kept (student_id : string) (w w' : World) (g : QuestionsGenerator)
    (inputs : list string) :
  __init__ student_id w = (Return g, w') ->
  conversation_history g = [history_header]
  /\ let rs := fst (session inputs {| self := g; world := w' |}) in
     let st := snd (session inputs {| self := g; world := w' |}) in
     exists turns sent,
       conversation_history (self st) = history_header :: turns
       /\ length turns = length inputs + replies rs
       /\ length (conversation_history (self st)) = 1 + (length inputs + replies rs)
       /\ requests (world st) = requests w' ++ sent
       /\ length sent = length inputs
       /\ Forall
            (fun request =>
               exists rest,
                 messages request
                 = [ {| role := "system"; content := system_prompt_template g |};
                     {| role := "user"; content := history_header +:+ nl +:+ rest |} ])
            sent.
Proof.
  intros Hinit. destruct (__init___returns _ _ _ _ Hinit) as [_ Hh].
  split; [exact Hh|]. cbv zeta.
  destruct (session_from_header inputs {| self := g; world := w' |} [] Hh)
    as (added & sent & Hh' & Hlen & _ & Hsent & Hn & Hall).
  cbv zeta in *. simpl in Hh', Hsent, Hall.
  exists added, sent. repeat split; try assumption.
  rewrite Hh'. simpl. now rewrite Hlen.
Qed.

(** C3. With both files of a student readable, the system instruction is
    built without touching the world, and it is the preamble, then the
    midterm text under its heading, then the prior-questions text under
    its heading: a text fixed by what the two files hold, the same at
    every call. *)
Theorem system_instruction_built (student_id : string)
    (midterm : list (string * V)) (mygpt : list (string * list Qn)) (w : World) :
  midterm_files !! ("midterm/" +:+ student_id +:+ ".json") = Some (Parsed midterm) ->
  mygpt_files !! ("mygpt/" +:+ student_id +:+ ".json") = Some (Parsed mygpt) ->
  (let! user_prompt_template := _initialize_user_prompt_template student_id in
   ret (_initialize_system_prompt_template user_prompt_template)) w
  = (Return
       (system_preamble
        +:+ (nl +:+ "        # 期中考弱項" +:+ nl +:+ "        "
             +:+ midterm_loop midterm ""
             +:+ nl +:+ nl +:+ "        # 問題" +:+ nl +:+ "        "
             +:+ mygpt_loop mygpt ""
             +:+ nl +:+ "        ")
        +:+ nl), w).
Proof.
  intros Hmid Hgpt.
  unfold _initialize_user_prompt_template, bind.
  rewrite (_get_midterm_parsed _ _ _ Hmid), (_get_mygpt_parsed _ _ _ Hgpt).
  reflexivity.
Qed.

(** C5. When the midterm file of the student is missing the constructor
    raises the file-not-found error and returns no object; run from the
    script on a new browser session, the session state is left without a
    generator. *)
Theorem missing_midterm_no_session (student_id : string) (w : World) :
  midterm_files !! ("midterm/" +:+ student_id +:+ ".json") = None ->
  __init__ student_id w
  = (Raise (FileNotFoundError ("midterm/" +:+ student_id +:+ ".json")), w)
  /\ (student_id = "111403538" ->
      forall clicked : bool,
        script clicked {| session_state := new_session; outside := w |}
        = (Raise (FileNotFoundError "midterm/111403538.json"),
           {| session_state := new_session; outside := w |})).
Proof.
  intros Hmissing. rewrite __init___run, Hmissing. split; [reflexivity|].
  intros -> clicked.
  unfold script, bind, if_not_in, QuestionsGenerator_new. simpl.
  rewrite __init___run.
  change ("midterm/" +:+ "111403538" +:+ ".json") with "midterm/111403538.json" in *.
  now rewrite Hmissing.
Qed.

(** ** The first run of the script *)

Lemma on_generator_run {A : Type} (method : M State A) (app : App) (g : QuestionsGenerator) :
  generator (session_state app) = Some g ->
  on_generator method app
  = (fst (method {| self := g; world := outside app |}),
     {| session_state :=
          set_generator (self (snd (method {| self := g; world := outside app |})))
            (session_state app);
        outside := world (snd (method {| self := g; world := outside app |})) |}).
Proof.
  intros Hg. unfold on_generator, bind, getattr. rewrite Hg.
  now destruct (method _) as [r st].
Qed.

(** C9. On a new browser session, with the student's data loaded and the
    endpoint answering, the first run of the script puts the phrase
    開始口試 in as the user's input before anyone has typed anything and
    processes it like any other turn: the container shows that phrase
    under the user's label and then the reply under the assistant's. *)
Theorem first_turn_seeded (w w' : World) (g : QuestionsGenerator)
    (completion : ChatCompletion) (choice : Choice) (others : list Choice) :
  let request :=
    {| model := "gpt-4o";
       messages :=
         [ {| role := "system"; content := system_prompt_template g |};
           {| role := "user"; content := history_header +:+ nl +:+ "開始口試" |} ];
       temperature := 0.6%Q |} in
  __init__ "111403538" w = (Return g, w') ->
  endpoint (client g) (requests w' ++ [request]) = inr completion ->
  choices completion = choice :: others ->
  script false {| session_state := new_session; outside := w |}
  = (Return ["你: 開始口試"; "AI: " +:+ reply (message choice)],
     {| session_state :=
          {| generator :=
               Some (set_conversation_history
                       [history_header; "開始口試"; reply (message choice)] g);
             chat_log := Some [("你", "開始口試"); ("AI", reply (message choice))];
             clear_input := Some true;
             user_input := Some "開始口試";
             widget := Some "" |};
        outside := {| requests := requests w' ++ [request] |} |}).
Proof.
  intros request Hinit Hanswer Hchoices.
  destruct (__init___returns _ _ _ _ Hinit) as [-> Hh].
  assert (Hturn : start_process "開始口試" {| self := g; world := w |}
    = (Return (reply (message choice)),
       {| self := set_conversation_history
                    [history_header; "開始口試"; reply (message choice)] g;
          world := {| requests := requests w ++ [request] |} |})).
  { rewrite start_process_run. simpl. unfold request_of, rendered_history. simpl.
    rewrite Hh. change (join nl ([history_header] ++ ["開始口試"]))
      with (history_header +:+ nl +:+ "開始口試").
    fold request. now rewrite Hanswer, Hchoices. }
  unfold script, process_input, bind, if_not_in, QuestionsGenerator_new. simpl.
  rewrite Hinit. simpl.
  rewrite (on_generator_run _ _ g) by reflexivity. simpl.
  rewrite Hturn. reflexivity.
Qed.

(** ** Further properties of the generator *)

Lemma start_process_frame (user_content : string) (st : State) :
  let g' := self (snd (start_process user_content st)) in
  student_id g' = student_id (self st)
  /\ user_prompt_template g' = user_prompt_template (self st)
  /\ system_prompt_template g' = system_prompt_template (self st)
  /\ client g' = client (self st).
Proof.
  cbv zeta. rewrite start_process_run.
  destruct (endpoint _ _) as [e|completion]; simpl; [now repeat split|].
  destruct (choices completion); simpl; now repeat split.
Qed.

(** X1. The constructor returns an object exactly when both files of the
    student parse and a credential is set; the object then carries the
    student's id, and its system prompt is the preamble, its own user
    prompt and a newline.  Whatever happens, the world is as before: no
    request is made while constructing. *)
Theorem construction_outcome (student_id0 : string) (w : World) :
  snd (__init__ student_id0 w) = w
  /\ ((exists g, fst (__init__ student_id0 w) = Return g)
      <-> (exists midterm mygpt key,
             midterm_files !! ("midterm/" +:+ student_id0 +:+ ".json")
             = Some (Parsed midterm)
             /\ mygpt_files !! ("mygpt/" +:+ student_id0 +:+ ".json")
                = Some (Parsed mygpt)
             /\ OPENAI_API_KEY = Some key))
  /\ forall g,
       fst (__init__ student_id0 w) = Return g ->
       student_id g = student_id0
       /\ system_prompt_template g
          = system_preamble +:+ user_prompt_template g +:+ nl.
Proof.
  rewrite __init___run.
  destruct (midterm_files !! _) as [[|midterm]|] eqn:Hmid;
    [| destruct (mygpt_files !! _) as [[|mygpt]|] eqn:Hgpt;
       [| destruct OPENAI_API_KEY as [key|] eqn:Hkey |] |];
    simpl; (split; [reflexivity|]); split;
    try (intros g Hg; discriminate Hg);
    try (split; [intros [g Hg]; discriminate Hg
                | intros (m & q & k & H1 & H2 & H3); congruence]).
  - split; [intros _; now exists midterm, mygpt, key | intros _; now eexists].
  - intros g [= <-]. now split.
Qed.

(** X2. With the midterm file read and the prior-questions file of the
    student missing, the constructor raises the file-not-found error for
    the prior-questions path, whatever the credential is. *)
Theorem missing_mygpt_file (student_id0 : string) (midterm : list (string * V))
    (w : World) :
  midterm_files !! ("midterm/" +:+ student_id0 +:+ ".json") = Some (Parsed midterm) ->
  mygpt_files !! ("mygpt/" +:+ student_id0 +:+ ".json") = None ->
  __init__ student_id0 w
  = (Raise (FileNotFoundError ("mygpt/" +:+ student_id0 +:+ ".json")), w).
Proof. intros Hmid Hgpt. now rewrite __init___run, Hmid, Hgpt. Qed.

(** X3. A midterm file that does not parse makes the constructor raise the
    decoding error for that file, whatever the other file and the
    credential hold; with the midterm file read, a prior-questions file
    that does not parse makes it raise the decoding error for that
    one. *)
Theorem malformed_files (student_id0 : string) (w : World) :
  (midterm_files !! ("midterm/" +:+ student_id0 +:+ ".json") = Some Malformed ->
   __init__ student_id0 w
   = (Raise (JSONDecodeError ("midterm/" +:+ student_id0 +:+ ".json")), w))
  /\ (forall midterm,
        midterm_files !! ("midterm/" +:+ student_id0 +:+ ".json")
        = Some (Parsed midterm) ->
        mygpt_files !! ("mygpt/" +:+ student_id0 +:+ ".json") = Some Malformed ->
        __init__ student_id0 w
        = (Raise (JSONDecodeError ("mygpt/" +:+ student_id0 +:+ ".json")), w)).
Proof.
  split.
  - intros Hmid. now rewrite __init___run, Hmid.
  - intros midterm Hmid Hgpt. now rewrite __init___run, Hmid, Hgpt.
Qed.

(** X4. A session changes nothing of the object but its history: the
    student's id, the two prompts and the client are as they were, after
    any inputs and whatever the endpoint answered. *)
Theorem session_keeps_attributes (inputs : list string) (st : State) :
  let g' := self (snd (session inputs st)) in
  student_id g' = student_id (self st)
  /\ user_prompt_template g' = user_prompt_template (self st)
  /\ system_prompt_template g' = system_prompt_template (self st)
  /\ client g' = client (self st).
Proof.
  revert st. induction inputs as [|user_content later IH]; intros st.
  - now repeat split.
  - cbv zeta. rewrite session_cons. simpl snd.
    destruct (IH (snd (start_process user_content st))) as (H1 & H2 & H3 & H4).
    destruct (start_process_frame user_content st) as (F1 & F2 & F3 & F4).
    cbv zeta in *. rewrite H1, H2, H3, H4. now repeat split.
Qed.

(** X5. When the endpoint answers with no choice at all, [start_process]
    raises the index error: the request has been made and the user's
    text is in the history, but nothing is appended after it. *)
Theorem start_process_no_choice (user_content : string) (st : State)
    (completion : ChatCompletion) :
  let request :=
    {| model := "gpt-4o";
       messages :=
         [ {| role := "system"; content := system_prompt_template (self st) |};
           {| role := "user";
              content := join nl (conversation_history (self st) ++ [user_content]) |} ];
       temperature := 0.6%Q |} in
  endpoint (client (self st)) (requests (world st) ++ [request]) = inr completion ->
  choices completion = [] ->
  start_process user_content st
  = (Raise IndexError,
     {| self := set_conversation_history
                  (conversation_history (self st) ++ [user_content]) (self st);
        world := {| requests := requests (world st) ++ [request] |} |}).
Proof.
  intros request Hanswer Hchoices. rewrite start_process_run.
  change (request_of _ "gpt-4o") with request.
  now rewrite Hanswer, Hchoices.
Qed.

Lemma turns_text_app (a b : list string) :
  turns_text (a ++ b) = turns_text a +:+ turns_text b.
Proof.
  unfold turns_text. induction a as [|t a IH]; [reflexivity|].
  simpl. rewrite IH. now rewrite !append_assoc.
Qed.

Lemma rendered_extended (g : QuestionsGenerator) (h added : list string) :
  conversation_history g <> [] ->
  join nl (conversation_history g ++ added) = rendered_history g +:+ turns_text added.
Proof. intros Hne. unfold rendered_history, turns_text. now apply join_app_turns. Qed.





Lemma join_merge (h : list string) (a b : string) :
  join nl (h ++ [a +:+ nl +:+ b]) = join nl (h ++ [a; b]).
Proof.
  destruct h as [|x h]; [reflexivity|].
  replace ((x :: h) ++ [a; b]) with (((x :: h) ++ [a]) ++ [b])
    by now rewrite <- app_assoc.
  rewrite !join_snoc by (try discriminate; destruct h; discriminate).
  now rewrite !append_assoc.
Qed.

(** X7. The rendering does not keep the borders between turns: a single
    turn whose text holds a newline renders exactly like the two turns
    it would make when cut there. *)
Theorem newline_merges_turns (a b : string) (st : State) :
  rendered_history (self (snd (add_all [a +:+ nl +:+ b] st)))
  = rendered_history (self (snd (add_all [a; b] st))).
Proof.
  rewrite !add_all_history. unfold rendered_history. simpl.
  apply join_merge.
Qed.

Lemma one_line_cut (a b x y : string) :
  one_line a -> one_line b ->
  a +:+ nl +:+ x = b +:+ nl +:+ y -> a = b /\ x = y.
Proof.
  revert b. induction a as [|c a IH]; intros [|d b] Ha Hb Heq.
  - change (String "010" x = String "010" y) in Heq.
    injection Heq as ->. now split.
  - change (String "010" x = String d (b +:+ nl +:+ y)) in Heq.
    injection Heq as Hc _. destruct Hb as [Hd _]. now subst.
  - change (String c (a +:+ nl +:+ x) = String "010" y) in Heq.
    injection Heq as Hc _. destruct Ha as [Hd _]. now subst.
  - change (String c (a +:+ nl +:+ x) = String d (b +:+ nl +:+ y)) in Heq.
    injection Heq as -> Heq.
    destruct Ha as [_ Ha], Hb as [_ Hb].
    destruct (IH b Ha Hb Heq) as [-> ->]. now split.
Qed.

Lemma one_line_whole (a b y : string) : one_line a -> a <> b +:+ nl +:+ y.
Proof.
  revert a. induction b as [|d b IH]; intros [|c a] Ha Heq; try discriminate.
  - change (String c a = String "010" y) in Heq.
    injection Heq as Hc _. destruct Ha as [Hd _]. now subst.
  - change (String c a = String d (b +:+ nl +:+ y)) in Heq.
    injection Heq as _ Heq.
    destruct Ha as [_ Ha]. exact (IH a Ha Heq).
Qed.

Lemma join_one_line_inj (l1 l2 : list string) :
  Forall one_line l1 -> Forall one_line l2 ->
  l1 <> [] -> l2 <> [] ->
  join nl l1 = join nl l2 -> l1 = l2.
Proof.
  revert l2. induction l1 as [|a l1 IH]; intros [|b l2] H1 H2 N1 N2 Heq;
    try congruence.
  inversion H1 as [|? ? Ha H1']; subst. inversion H2 as [|? ? Hb H2']; subst.
  destruct l1 as [|a' l1], l2 as [|b' l2].
  - change (a = b) in Heq. now subst.
  - change (a = b +:+ nl +:+ join nl (b' :: l2)) in Heq.
    now apply one_line_whole in Heq.
  - change (a +:+ nl +:+ join nl (a' :: l1) = b) in Heq. symmetry in Heq.
    now apply one_line_whole in Heq.
  - rewrite !join_cons in Heq.
    destruct (one_line_cut _ _ _ _ Ha Hb Heq) as [-> Hrest].
    f_equal. apply IH; try assumption; discriminate.
Qed.

(** X8. When no turn holds a newline, the rendering keeps every turn:
    two objects with non-empty histories of such turns that render alike
    hold the same history. *)
Theorem rendering_determines_history (g1 g2 : QuestionsGenerator) :
  Forall one_line (conversation_history g1) ->
  Forall one_line (conversation_history g2) ->
  conversation_history g1 <> [] ->
  conversation_history g2 <> [] ->
  rendered_history g1 = rendered_history g2 ->
  conversation_history g1 = conversation_history g2.
Proof. unfold rendered_history. apply join_one_line_inj. Qed.

Lemma foldr_append_app (a b : list string) :
  foldr append "" (a ++ b) = foldr append "" a +:+ foldr append "" b.
Proof.
  induction a as [|x a IH]; [reflexivity|].
  simpl. now rewrite IH, append_assoc.
Qed.

(** X9. Both readers print their items one after the other, each on its
    own: the text for two lists of items put together is the text for
    the first followed by the text for the second.  In particular the
    numbering of the questions starts again at 1 in every category. *)
Theorem loops_compose :
  (forall a b : list (string * V),
     midterm_loop (a ++ b) "" = midterm_loop a "" +:+ midterm_loop b "")
  /\ (forall a b : list (string * list Qn),
        mygpt_loop (a ++ b) "" = mygpt_loop a "" +:+ mygpt_loop b "")
  /\ (forall (key : string) (value : list Qn) (later : list (string * list Qn)),
        mygpt_loop ((key, value) :: later) ""
        = category_section key value +:+ mygpt_loop later "").
Proof.
  split; [|split].
  - intros a b. rewrite !midterm_loop_lines, map_app, foldr_append_app. reflexivity.
  - intros a b. rewrite !mygpt_loop_sections, map_app, foldr_append_app. reflexivity.
  - intros key value later. rewrite !mygpt_loop_sections. reflexivity.
Qed.

(** ** Further properties of the script *)

Lemma bind_run {S A B : Type} (m : M S A) (k : A -> M S B) (s : S) :
  bind m k s
  = match m s with
    | (Return a, s') => k a s'
    | (Raise e, s') => (Raise e, s')
    end.
Proof. reflexivity. Qed.

(** What [process_input] does once the generator, the chat log and the
    user's input are set, by the outcome of the turn. *)
Lemma process_input_run (g : QuestionsGenerator) (log : list (string * string))
    (cleared : option bool) (text : string) (input : option string) (w : World) :
  process_input
    {| session_state :=
         {| generator := Some g; chat_log := Some log; clear_input := cleared;
            user_input := Some text; widget := input |};
       outside := w |}
  = match start_process text {| self := g; world := w |} with
    | (Return response, st) =>
        (Return tt,
         {| session_state :=
              {| generator := Some (self st);
                 chat_log := Some (log ++ [("你", text); ("AI", response)]);
                 clear_input := Some true;
                 user_input := Some text; widget := input |};
            outside := world st |})
    | (Raise e, st) =>
        (Raise e,
         {| session_state :=
              {| generator := Some (self st);
                 chat_log := Some (log ++ [("你", text)]);
                 clear_input := cleared;
                 user_input := Some text; widget := input |};
            outside := world st |})
    end.
Proof.
  unfold process_input, bind, getattr, setattr, modify. simpl.
  rewrite (on_generator_run _ _ g) by reflexivity. simpl.
  destruct (start_process text _) as [[response|e] st]; simpl; [|reflexivity].
  now rewrite <- app_assoc.
Qed.

(** X10. When the completion call of a turn fails, [process_input] raises
    the error of the call: the chat log has the user's line and no
    reply, the history has the user's text, the request has been made,
    and the flag [clear_input] is as it was. *)
Theorem process_input_remote_failure (g : QuestionsGenerator)
    (log : list (string * string)) (cleared : bool) (text : string)
    (input : option string) (w : World) (e : APIError) :
  let request :=
    {| model := "gpt-4o";
       messages :=
         [ {| role := "system"; content := system_prompt_template g |};
           {| role := "user";
              content := join nl (conversation_history g ++ [text]) |} ];
       temperature := 0.6%Q |} in
  endpoint (client g) (requests w ++ [request]) = inl e ->
  process_input {| session_state := ready g log cleared text input; outside := w |}
  = (Raise (RemoteError e),
     {| session_state :=
          ready (set_conversation_history (conversation_history g ++ [text]) g)
            (log ++ [("你", text)]) cleared text input;
        outside := {| requests := requests w ++ [request] |} |}).
Proof.
  intros request Hfails. unfold ready. rewrite process_input_run, start_process_run.
  simpl. change (request_of _ "gpt-4o") with request. now rewrite Hfails.
Qed.

(** X11. A run of the script on a session where every key is set, without
    a click, makes no request and changes neither the generator nor the
    chat log nor the stored input: it only draws the text input and shows
    the chat log, one line [speaker: message] per entry, in order.  The
    trigger phrase is not sent again. *)
Theorem rerun_shows_log (g : QuestionsGenerator) (log : list (string * string))
    (cleared : bool) (text : string) (input : option string) (w : World) :
  script false {| session_state := ready g log cleared text input; outside := w |}
  = (Return (map (fun '(speaker, message) => speaker +:+ ": " +:+ message) log),
     {| session_state :=
          ready g log cleared text
            (Some match input with Some typed => typed | None => "" end);
        outside := w |}).
Proof.
  unfold script, bind, if_not_in, getattr, setattr, modify, ret, ready. simpl.
  destruct input as [typed|]; simpl; f_equal;
    apply map_ext; now intros [speaker message].
Qed.

(** X12. A click on the button runs one more turn with the input that is
    stored in the session, the one of the last turn: when the endpoint
    answers, the chat log gets that text again under the user's label,
    then the reply, and both are shown below the lines already there. *)
Theorem click_sends_stored_input (g : QuestionsGenerator)
    (log : list (string * string)) (cleared : bool) (text : string)
    (input : option string) (w : World)
    (completion : ChatCompletion) (choice : Choice) (others : list Choice) :
  let request :=
    {| model := "gpt-4o";
       messages :=
         [ {| role := "system"; content := system_prompt_template g |};
           {| role := "user";
              content := join nl (conversation_history g ++ [text]) |} ];
       temperature := 0.6%Q |} in
  endpoint (client g) (requests w ++ [request]) = inr completion ->
  choices completion = choice :: others ->
  script true {| session_state := ready g log cleared text input; outside := w |}
  = (Return (map written log
             ++ ["你: " +:+ text; "AI: " +:+ reply (message choice)]),
     {| session_state :=
          ready
            (set_conversation_history
               (conversation_history g ++ [text; reply (message choice)]) g)
            (log ++ [("你", text); ("AI", reply (message choice))]) true text
            (Some match input with Some typed => typed | None => "" end);
        outside := {| requests := requests w ++ [request] |} |}).
Proof.
  intros request Hanswer Hchoices.
  assert (Hturn : start_process text {| self := g; world := w |}
    = (Return (reply (message choice)),
       {| self := set_conversation_history
                    (conversation_history g ++ [text; reply (message choice)]) g;
          world := {| requests := requests w ++ [request] |} |})).
  { rewrite start_process_run. simpl. change (request_of _ "gpt-4o") with request.
    now rewrite Hanswer, Hchoices. }
  unfold script, ready.
  destruct input as [typed|];
    cbn [bind if_not_in setattr modify session_state outside
         generator chat_log clear_input user_input widget];
    unfold set_widget;
    cbn [session_state outside generator chat_log clear_input user_input widget];
    rewrite bind_run, process_input_run, Hturn;
    cbn [bind getattr ret session_state chat_log];
    now rewrite map_app.
Qed.

(** X13. The callback of the text input takes the typed text as the
    user's input, empties the widget and runs a turn with that text.
    When the endpoint answers, the chat log gets the text and the reply;
    when the call fails, the error is raised with the widget already
    emptied, the typed text stored as the input and shown in the chat
    log without a reply. *)
Theorem submit_turn (g : QuestionsGenerator) (log : list (string * string))
    (cleared : bool) (text typed : string) (w : World) :
  let request :=
    {| model := "gpt-4o";
       messages :=
         [ {| role := "system"; content := system_prompt_template g |};
           {| role := "user";
              content := join nl (conversation_history g ++ [typed]) |} ];
       temperature := 0.6%Q |} in
  let before :=
    {| session_state := ready g log cleared text (Some typed); outside := w |} in
  (forall completion choice others,
     endpoint (client g) (requests w ++ [request]) = inr completion ->
     choices completion = choice :: others ->
     submit before
     = (Return tt,
        {| session_state :=
             ready
               (set_conversation_history
                  (conversation_history g ++ [typed; reply (message choice)]) g)
               (log ++ [("你", typed); ("AI", reply (message choice))]) true typed
               (Some "");
           outside := {| requests := requests w ++ [request] |} |}))
  /\ (forall e,
        endpoint (client g) (requests w ++ [request]) = inl e ->
        submit before
        = (Raise (RemoteError e),
           {| session_state :=
                ready (set_conversation_history (conversation_history g ++ [typed]) g)
                  (log ++ [("你", typed)]) cleared typed (Some "");
              outside := {| requests := requests w ++ [request] |} |})).
Proof.
  intros request before. subst before.
  assert (Hsubmit : submit
            {| session_state := ready g log cleared text (Some typed); outside := w |}
          = process_input
              {| session_state := ready g log cleared typed (Some ""); outside := w |})
    by reflexivity.
  rewrite Hsubmit. unfold ready. rewrite process_input_run, start_process_run.
  simpl. change (request_of _ "gpt-4o") with request.
  split.
  - intros completion choice others Hanswer Hchoices. now rewrite Hanswer, Hchoices.
  - intros e Hfails. now rewrite Hfails.
Qed.

(** *** The guards of the script *)

(** Without a generator the script constructs one and goes on as if it
    had been there; when the constructor raises, the run ends there. *)
Lemma script_constructs (clicked : bool) (log : option (list (string * string)))
    (cleared : option bool) (text input : option string) (w : World) :
  script clicked
    {| session_state :=
         {| generator := None; chat_log := log; clear_input := cleared;
            user_input := text; widget := input |};
       outside := w |}
  = match __init__ "111403538" w with
    | (Return g, w') =>
        script clicked
          {| session_state :=
               {| generator := Some g; chat_log := log; clear_input := cleared;
                  user_input := text; widget := input |};
             outside := w' |}
    | (Raise e, w') =>
        (Raise e,
         {| session_state :=
              {| generator := None; chat_log := log; clear_input := cleared;
                 user_input := text; widget := input |};
            outside := w' |})
    end.
Proof.
  unfold script at 1. rewrite bind_run. unfold if_not_in at 1.
  cbn [session_state generator]. rewrite bind_run.
  unfold QuestionsGenerator_new. cbn [session_state outside].
  destruct (__init__ "111403538" w) as [[g|e] w']; [|reflexivity].
  reflexivity.
Qed.

(** Without a chat log the script starts an empty one. *)
Lemma script_starts_log (clicked : bool) (g : QuestionsGenerator)
    (cleared : option bool) (text input : option string) (w : World) :
  script clicked
    {| session_state :=
         {| generator := Some g; chat_log := None; clear_input := cleared;
            user_input := text; widget := input |};
       outside := w |}
  = script clicked
      {| session_state :=
           {| generator := Some g; chat_log := Some []; clear_input := cleared;
              user_input := text; widget := input |};
         outside := w |}.
Proof. reflexivity. Qed.

(** Without the flag the script sets it to false. *)
Lemma script_sets_flag (clicked : bool) (g : QuestionsGenerator)
    (log : list (string * string)) (text input : option string) (w : World) :
  script clicked
    {| session_state :=
         {| generator := Some g; chat_log := Some log; clear_input := None;
            user_input := text; widget := input |};
       outside := w |}
  = script clicked
      {| session_state :=
           {| generator := Some g; chat_log := Some log; clear_input := Some false;
              user_input := text; widget := input |};
         outside := w |}.
Proof. reflexivity. Qed.

(** What is shown never changes the state. *)
Lemma display_state (app : App) :
  snd ((let! log := getattr "chat_log" chat_log in ret (map written log)) app) = app.
Proof.
  rewrite bind_run. unfold getattr.
  now destruct (chat_log (session_state app)).
Qed.

(** With every key set the script draws the widget, runs a turn if the
    button was clicked, and shows the chat log. *)
Lemma script_ready (clicked : bool) (g : QuestionsGenerator)
    (log : list (string * string)) (cleared : bool) (text : string)
    (input : option string) (w : World) :
  script clicked {| session_state := ready g log cleared text input; outside := w |}
  = ((if clicked then process_input else ret tt) ;;;
     let! log := getattr "chat_log" chat_log in ret (map written log))
      {| session_state :=
           ready g log cleared text
             (Some match input with Some typed => typed | None => "" end);
         outside := w |}.
Proof. destruct input; reflexivity. Qed.

(** Without a stored input the script stores the trigger phrase and runs
    a turn with it; when that turn returns, the run goes on as on a
    session with every key set. *)
Lemma script_seeds (clicked : bool) (g : QuestionsGenerator)
    (log : list (string * string)) (cleared : bool) (input : option string)
    (w : World) :
  script clicked
    {| session_state :=
         {| generator := Some g; chat_log := Some log; clear_input := Some cleared;
            user_input := None; widget := input |};
       outside := w |}
  = match process_input
            {| session_state := ready g log cleared "開始口試" input; outside := w |}
    with
    | (Return _, app) => script clicked app
    | (Raise e, app) => (Raise e, app)
    end.
Proof.
  unfold script at 1. do 3 (rewrite bind_run; unfold if_not_in at 1;
    cbn [session_state generator chat_log clear_input]).
  rewrite bind_run. unfold if_not_in at 1. cbn [session_state user_input].
  rewrite bind_run. unfold setattr at 1, modify, set_user_input.
  cbn [session_state outside generator chat_log clear_input user_input widget].
  unfold ready. rewrite process_input_run.
  destruct (start_process "開始口試" _) as [[response|e] st]; reflexivity.
Qed.

Lemma no_attribute_error_raise {A B : Type} (e : exn) :
  no_attribute_error (A:=A) (Raise e) -> no_attribute_error (A:=B) (Raise e).
Proof. intros Hsafe name [= ->]. now apply (Hsafe name). Qed.

Lemma start_process_no_attribute_error (user_content : string) (st : State) :
  no_attribute_error (fst (start_process user_content st)).
Proof.
  rewrite start_process_run.
  destruct (endpoint _ _) as [e|completion]; [intros name; discriminate|].
  destruct (choices completion); intros name; discriminate.
Qed.


(** A turn run from the script on a session with every key set: every key
    stays set, the stored input and the widget are untouched, and a chat
    log that follows the history still follows it. *)
Lemma process_input_ready (g : QuestionsGenerator) (log : list (string * string))
    (cleared : bool) (text : string) (input : option string) (w : World) :
  exists r g' log' cleared' w',
    process_input {| session_state := ready g log cleared text input; outside := w |}
    = (r, {| session_state := ready g' log' cleared' text input; outside := w' |})
    /\ no_attribute_error r
    /\ (conversation_history g = history_header :: map snd log ->
        conversation_history g' = history_header :: map snd log').
Proof.
  unfold ready. rewrite process_input_run.
  pose proof (start_process_no_attribute_error text {| self := g; world := w |}) as Hsafe.
  pose proof (start_process_run text {| self := g; world := w |}) as Hrun.
  cbv zeta in Hrun. simpl in Hrun.
  destruct (start_process text _) as [[response|e] st]; simpl in Hsafe.
  - exists (Return tt), (self st), (log ++ [("你", text); ("AI", response)]), true, (world st).
    split; [reflexivity|]. split; [intros name; discriminate|].
    intros Hh.
    destruct (endpoint _ _) as [e|completion]; [discriminate|].
    destruct (choices completion) as [|choice rest]; [discriminate|].
    injection Hrun as Hr Hst. subst response st. simpl.
    rewrite Hh, map_app. reflexivity.
  - exists (Raise e), (self st), (log ++ [("你", text)]), cleared, (world st).
    split; [reflexivity|].
    split; [exact (no_attribute_error_raise e Hsafe)|].
    intros Hh.
    destruct (endpoint _ _) as [e'|completion].
    + injection Hrun as _ Hst. subst st. simpl.
      rewrite Hh, map_app. reflexivity.
    + destruct (choices completion) as [|choice rest]; [|discriminate].
      injection Hrun as _ Hst. subst st. simpl.
      rewrite Hh, map_app. reflexivity.
Qed.

(** A run of the script on a session with every key set. *)
Lemma script_ready_outcome (clicked : bool) (g : QuestionsGenerator)
    (log : list (string * string)) (cleared : bool) (text : string)
    (input : option string) (w : World) :
  exists r g' log' cleared' input' w',
    script clicked {| session_state := ready g log cleared text input; outside := w |}
    = (r, {| session_state := ready g' log' cleared' text input'; outside := w' |})
    /\ no_attribute_error r
    /\ (conversation_history g = history_header :: map snd log ->
        conversation_history g' = history_header :: map snd log').
Proof.
  rewrite script_ready. rewrite bind_run. destruct clicked.
  - destruct (process_input_ready g log cleared text
                (Some match input with Some typed => typed | None => "" end) w)
      as (r & g' & log' & cleared' & w' & Hrun & Hsafe & Hh).
    rewrite Hrun. destruct r as [[]|e].
    + eexists _, g', log', cleared', _, w'.
      split; [reflexivity|]. split; [intros name; discriminate | exact Hh].
    + eexists _, g', log', cleared', _, w'.
      split; [reflexivity|].
      split; [exact (no_attribute_error_raise e Hsafe) | exact Hh].
  - eexists _, g, log, cleared, _, w.
    split; [reflexivity|]. split; [intros name; discriminate | auto].
Qed.

(** A run of the script on a session where only the stored input and the
    widget may be missing. *)
Lemma script_with_log (clicked : bool) (g : QuestionsGenerator)
    (log : list (string * string)) (cleared : bool)
    (text input : option string) (w : World) :
  exists r g' log' cleared' text' input' w',
    script clicked
      {| session_state :=
           {| generator := Some g; chat_log := Some log; clear_input := Some cleared;
              user_input := text; widget := input |};
         outside := w |}
    = (r, {| session_state := ready g' log' cleared' text' input'; outside := w' |})
    /\ no_attribute_error r
    /\ (conversation_history g = history_header :: map snd log ->
        conversation_history g' = history_header :: map snd log').
Proof.
  destruct text as [text|].
  - destruct (script_ready_outcome clicked g log cleared text input w)
      as (r & g' & log' & cleared' & input' & w' & Hrun & Hsafe & Hh).
    now exists r, g', log', cleared', text, input', w'.
  - rewrite script_seeds.
    destruct (process_input_ready g log cleared "開始口試" input w)
      as (r & g1 & log1 & cleared1 & w1 & Hrun & Hsafe & Hh).
    rewrite Hrun. destruct r as [[]|e].
    + destruct (script_ready_outcome clicked g1 log1 cleared1 "開始口試" input w1)
        as (r & g' & log' & cleared' & input' & w' & Hrun' & Hsafe' & Hh').
      exists r, g', log', cleared', "開始口試", input', w'. now auto.
    + exists (Raise e), g1, log1, cleared1, "開始口試", input, w1.
      split; [reflexivity|].
      split; [exact (no_attribute_error_raise e Hsafe) | now auto].
Qed.

(** A run of the script on a session that has a generator. *)
Lemma script_with_generator (clicked : bool) (g : QuestionsGenerator)
    (log : option (list (string * string))) (cleared : option bool)
    (text input : option string) (w : World) :
  exists r g' log' cleared' text' input' w',
    script clicked
      {| session_state :=
           {| generator := Some g; chat_log := log; clear_input := cleared;
              user_input := text; widget := input |};
         outside := w |}
    = (r, {| session_state := ready g' log' cleared' text' input'; outside := w' |})
    /\ no_attribute_error r
    /\ (conversation_history g
        = history_header :: map snd match log with Some l => l | None => [] end ->
        conversation_history g' = history_header :: map snd log').
Proof.
  destruct log as [log|]; [|rewrite script_starts_log];
    (destruct cleared as [cleared|]; [|rewrite script_sets_flag]);
    apply script_with_log.
Qed.


(** X15. The chat log shown and the history sent stay in step.  From a new
    session, or from one where every key is set and the chat log lists
    the texts of the history after the header, a run of the script
    leaves a session of one of these two kinds, whatever the constructor
    and the endpoint do; and so does the callback of the text input on a
    session of the second kind. *)
Theorem chat_log_follows_history (app : App) :
  consistent (session_state app) ->
  (forall clicked, consistent (session_state (snd (script clicked app))))
  /\ (aligned (session_state app) ->
      widget (session_state app) <> None ->
      aligned (session_state (snd (submit app)))).
Proof.
  destruct app as [[gen log cleared text input] w]. cbn [session_state].
  intros Hc. split.
  - intros clicked. unfold consistent, aligned in Hc.
    cbn [generator chat_log clear_input user_input widget] in Hc.
    destruct Hc as [(-> & -> & -> & ->) | (g & log0 & c0 & t0 & Heq & Hh)].
    + rewrite script_constructs.
      destruct (__init__ "111403538" w) as [[g|e] w'] eqn:Hinit.
      * destruct (__init___returns _ _ _ _ Hinit) as [_ Hh].
        destruct (script_with_generator clicked g None None None input w')
          as (r & g' & log' & cleared' & text' & input' & w1 & Hrun & _ & Hal).
        rewrite Hrun. right. exists g', log', cleared', text'.
        split; [reflexivity | exact (Hal Hh)].
      * left. now repeat split.
    + unfold ready in Heq. injection Heq as -> -> -> ->.
      destruct (script_with_generator clicked g (Some log0) (Some c0) (Some t0) input w)
        as (r & g' & log' & cleared' & text' & input' & w1 & Hrun & _ & Hal).
      rewrite Hrun. right. exists g', log', cleared', text'.
      split; [reflexivity | exact (Hal Hh)].
  - intros (g & log0 & c0 & t0 & Heq & Hh) Hw.
    cbn [generator chat_log clear_input user_input widget] in *.
    unfold ready in Heq. injection Heq as -> -> -> ->.
    destruct input as [typed|]; [|congruence].
    change (submit _) with
      (process_input
         {| session_state := ready g log0 c0 typed (Some ""); outside := w |}).
    destruct (process_input_ready g log0 c0 typed (Some "") w)
      as (r & g' & log' & cleared' & w' & Hrun & _ & Hal).
    rewrite Hrun. exists g', log', cleared', typed.
    split; [reflexivity | exact (Hal Hh)].
Qed.


End Environment.

(** ** The rendered student context *)

(** C2. The midterm reader returns one line [key: value] per item of the
    file, in order; the prior-questions reader returns, per category, the
    category name and a colon, an empty line, the questions numbered from
    1 one per line, and an empty line.  For the midterm file
    [{"recursion": "weak"}] and the prior-questions file
    [{"loops": ["why use a for-loop?", "what is an infinite loop?"]}] the
    context block holds the line [recursion: weak] and a section [loops]
    with the items [1. why use a for-loop?] and
    [2. what is an infinite loop?]. *)
Theorem context_rendering :
  (forall (V Qn : Type) (FV : Format V) (FQ : Format Qn)
          (midterm_files : gmap string (Json (list (string * V))))
          (mygpt_files : gmap string (Json (list (string * list Qn))))
          (student_id : string) (midterm : list (string * V))
          (mygpt : list (string * list Qn)) (w : World),
     midterm_files !! ("midterm/" +:+ student_id +:+ ".json") = Some (Parsed midterm) ->
     mygpt_files !! ("mygpt/" +:+ student_id +:+ ".json") = Some (Parsed mygpt) ->
     _get_midterm midterm_files student_id w
     = (Return
          (foldr append ""
             (map (fun '(key, value) => key +:+ ": " +:+ format value +:+ nl) midterm)),
        w)
     /\ _get_mygpt mygpt_files student_id w
        = (Return
             (foldr append ""
                (map (fun '(key, value) =>
                        (key +:+ ":" +:+ nl +:+ nl)
                        +:+ foldr append ""
                              (imap (fun i question =>
                                       format (Z.of_nat i + 1)%Z +:+ ". "
                                       +:+ format question +:+ nl) value)
                        +:+ nl) mygpt)),
           w))
  /\ (forall (midterm_files : gmap string (Json (list (string * string))))
             (mygpt_files : gmap string (Json (list (string * list string))))
             (student_id : string) (w : World),
        midterm_files !! ("midterm/" +:+ student_id +:+ ".json")
        = Some (Parsed [("recursion", "weak")]) ->
        mygpt_files !! ("mygpt/" +:+ student_id +:+ ".json")
        = Some (Parsed [("loops", ["why use a for-loop?"; "what is an infinite loop?"])]) ->
        exists block,
          _initialize_user_prompt_template midterm_files mygpt_files student_id w
          = (Return block, w)
          /\ contains "recursion: weak" block
          /\ contains
               ("loops:" +:+ nl +:+ nl
                +:+ "1. why use a for-loop?" +:+ nl
                +:+ "2. what is an infinite loop?" +:+ nl)
               block).
Proof.
  split.
  - intros V Qn FV FQ midterm_files mygpt_files student_id midterm mygpt w Hmid Hgpt.
    rewrite (_get_midterm_parsed _ _ _ _ Hmid), (_get_mygpt_parsed _ _ _ _ Hgpt).
    rewrite midterm_loop_lines, mygpt_loop_sections.
    split; reflexivity.
  - intros midterm_files mygpt_files student_id w Hmid Hgpt.
    eexists. split; [|split].
    + unfold _initialize_user_prompt_template, bind.
      rewrite (_get_midterm_parsed _ _ _ _ Hmid), (_get_mygpt_parsed _ _ _ _ Hgpt).
      reflexivity.
    + exists (nl +:+ "        # 期中考弱項" +:+ nl +:+ "        ").
      eexists. vm_compute. reflexivity.
    + exists (nl +:+ "        # 期中考弱項" +:+ nl +:+ "        "
              +:+ "recursion: weak" +:+ nl +:+ nl +:+ nl
              +:+ "        # 問題" +:+ nl +:+ "        ").
      eexists. vm_compute. reflexivity.
Qed.

(** ** The theorems at the demonstration data *)

Lemma context_rendering_witness :
  demo_midterm_files !! ("midterm/" +:+ "111403538" +:+ ".json")
  = Some (Parsed [("recursion", "weak")])
  /\ demo_mygpt_files !! ("mygpt/" +:+ "111403538" +:+ ".json")
     = Some (Parsed [("loops", ["why use a for-loop?"; "what is an infinite loop?"])])
  /\ exists block,
       _initialize_user_prompt_template demo_midterm_files demo_mygpt_files
         "111403538" {| requests := [] |}
       = (Return block, {| requests := [] |})
       /\ contains "recursion: weak" block
       /\ contains
            ("loops:" +:+ nl +:+ nl
             +:+ "1. why use a for-loop?" +:+ nl
             +:+ "2. what is an infinite loop?" +:+ nl)
            block.
Proof.
  split; [vm_compute; reflexivity|]. split; [vm_compute; reflexivity|].
  apply (proj2 context_rendering demo_midterm_files demo_mygpt_files "111403538").
  - vm_compute; reflexivity.
  - vm_compute; reflexivity.
Defined.

Lemma start_process_steps_witness :
  start_process demo_endpoint "開始口試" demo_state
  = (Return "請先自我介紹。",
     {| self := set_conversation_history
                  [history_header; "開始口試"; "請先自我介紹。"] demo_generator;
        world :=
          {| requests :=
               [ {| model := "gpt-4o";
                    messages :=
                      [ {| role := "system"; content := "system" |};
                        {| role := "user";
                           content := history_header +:+ nl +:+ "開始口試" |} ];
                    temperature := 0.6%Q |} ] |} |}).
Proof.
  apply (start_process_steps demo_endpoint "開始口試" demo_state
           {| choices := [demo_choice] |} demo_choice []); reflexivity.
Defined.

Lemma start_process_remote_failure_witness :
  start_process down_endpoint "開始口試" demo_state
  = (Raise (RemoteError APIConnectionError),
     {| self := set_conversation_history [history_header; "開始口試"] demo_generator;
        world :=
          {| requests :=
               [ {| model := "gpt-4o";
                    messages :=
                      [ {| role := "system"; content := "system" |};
                        {| role := "user";
                           content := history_header +:+ nl +:+ "開始口試" |} ];
                    temperature := 0.6%Q |} ] |} |}).
Proof.
  apply (start_process_remote_failure down_endpoint "開始口試" demo_state
           APIConnectionError); reflexivity.
Defined.

Lemma _get_questions_request_witness :
  fst (_get_questions demo_endpoint "gpt-4o" demo_state) = Return "請先自我介紹。".
Proof.
  apply (proj2 (_get_questions_request demo_endpoint "gpt-4o" demo_state)
           {| choices := [demo_choice] |} demo_choice []); reflexivity.
Defined.

Lemma history_append_only_witness :
  conversation_history (self (snd (_add_conversation_history "開始口試" demo_state))) !! 0
  = Some history_header.
Proof.
  apply (proj2 (proj2 (proj1 (history_append_only demo_endpoint) "開始口試" demo_state))
           0 history_header).
  reflexivity.
Defined.

Lemma render_after_appends_witness :
  rendered_history (self (snd (add_all ["開始口試"; "請先自我介紹。"] demo_state)))
  = rendered_history (self demo_state)
    +:+ foldr append "" (map (fun turn => nl +:+ turn) ["開始口試"; "請先自我介紹。"]).
Proof.
  apply (proj1 (proj2 (proj2 (render_after_appends ["開始口試"; "請先自我介紹。"] demo_state)))).
  discriminate.
Defined.

Lemma system_instruction_built_witness :
  (let! user_prompt_template :=
     _initialize_user_prompt_template demo_midterm_files demo_mygpt_files "111403538" in
   ret (_initialize_system_prompt_template user_prompt_template)) {| requests := [] |}
  = (Return
       (system_preamble
        +:+ (nl +:+ "        # 期中考弱項" +:+ nl +:+ "        "
             +:+ midterm_loop [("recursion", "weak")] ""
             +:+ nl +:+ nl +:+ "        # 問題" +:+ nl +:+ "        "
             +:+ mygpt_loop
                   [("loops", ["why use a for-loop?"; "what is an infinite loop?"])] ""
             +:+ nl +:+ "        ")
        +:+ nl), {| requests := [] |}).
Proof.
  apply (system_instruction_built demo_midterm_files demo_mygpt_files "111403538"
           [("recursion", "weak")]
           [("loops", ["why use a for-loop?"; "what is an infinite loop?"])]
           {| requests := [] |}).
  - vm_compute; reflexivity.
  - vm_compute; reflexivity.
Defined.

Lemma missing_midterm_no_session_witness :
  __init__ (V:=string) (Qn:=string) ∅ demo_mygpt_files demo_key "111403538"
    {| requests := [] |}
  = (Raise (FileNotFoundError "midterm/111403538.json"), {| requests := [] |})
  /\ script (V:=string) (Qn:=string) ∅ demo_mygpt_files demo_key demo_endpoint false
       {| session_state := new_session; outside := {| requests := [] |} |}
     = (Raise (FileNotFoundError "midterm/111403538.json"),
        {| session_state := new_session; outside := {| requests := [] |} |}).
Proof.
  destruct (missing_midterm_no_session (V:=string) (Qn:=string) ∅ demo_mygpt_files
              demo_key demo_endpoint "111403538" {| requests := [] |})
    as [Hinit Hscript]; [reflexivity|].
  split; [exact Hinit | exact (Hscript eq_refl false)].
Defined.

Lemma header_kept_witness :
  __init__ demo_midterm_files demo_mygpt_files demo_key "111403538" {| requests := [] |}
  = (Return demo_constructed, {| requests := [] |})
  /\ conversation_history demo_constructed = [history_header]
  /\ exists (turns : list string) (sent : list Request),
       conversation_history
         (self (snd (session demo_endpoint ["開始口試"; "我叫王小明"]
                       {| self := demo_constructed; world := {| requests := [] |} |})))
       = history_header :: turns
       /\ length turns = 4
       /\ length sent = 2.
Proof.
  split; [vm_compute; reflexivity|].
  destruct (header_kept demo_midterm_files demo_mygpt_files demo_key demo_endpoint
              "111403538" {| requests := [] |} {| requests := [] |} demo_constructed
              ["開始口試"; "我叫王小明"])
    as [Hh (turns & sent & Hturns & Hlen & _ & _ & Hsent & _)];
    [vm_compute; reflexivity|].
  split; [exact Hh|]. exists turns, sent.
  split; [exact Hturns|]. split; [exact Hlen | exact Hsent].
Defined.

Lemma first_turn_seeded_witness :
  script demo_midterm_files demo_mygpt_files demo_key demo_endpoint false
    {| session_state := new_session; outside := {| requests := [] |} |}
  = (Return ["你: 開始口試"; "AI: 請先自我介紹。"],
     {| session_state :=
          {| generator :=
               Some (set_conversation_history
                       [history_header; "開始口試"; "請先自我介紹。"] demo_constructed);
             chat_log := Some [("你", "開始口試"); ("AI", "請先自我介紹。")];
             clear_input := Some true;
             user_input := Some "開始口試";
             widget := Some "" |};
        outside :=
          {| requests :=
               [ {| model := "gpt-4o";
                    messages :=
                      [ {| role := "system";
                           content := system_prompt_template demo_constructed |};
                        {| role := "user";
                           content := history_header +:+ nl +:+ "開始口試" |} ];
                    temperature := 0.6%Q |} ] |} |}).
Proof.
  apply (first_turn_seeded demo_midterm_files demo_mygpt_files demo_key demo_endpoint
           {| requests := [] |} {| requests := [] |} demo_constructed
           {| choices := [demo_choice] |} demo_choice []).
  - vm_compute; reflexivity.
  - reflexivity.
  - reflexivity.
Defined.

(** ** The further properties at the demonstration data *)

Lemma construction_outcome_witness :
  fst (__init__ demo_midterm_files demo_mygpt_files demo_key "111403538"
         {| requests := [] |})
  = Return demo_constructed
  /\ student_id demo_constructed = "111403538"
  /\ system_prompt_template demo_constructed
     = system_preamble +:+ user_prompt_template demo_constructed +:+ nl.
Proof.
  split; [vm_compute; reflexivity|].
  apply (proj2 (proj2 (construction_outcome demo_midterm_files demo_mygpt_files
                         demo_key "111403538" {| requests := [] |}))
           demo_constructed).
  vm_compute; reflexivity.
Defined.

Lemma missing_mygpt_file_witness :
  __init__ (Qn:=string) demo_midterm_files ∅ demo_key "111403538" {| requests := [] |}
  = (Raise (FileNotFoundError ("mygpt/" +:+ "111403538" +:+ ".json")),
     {| requests := [] |}).
Proof.
  apply (missing_mygpt_file (Qn:=string) demo_midterm_files ∅ demo_key "111403538"
           [("recursion", "weak")] {| requests := [] |}).
  - vm_compute; reflexivity.
  - reflexivity.
Defined.

Lemma malformed_files_witness :
  __init__ demo_bad_midterm_files demo_mygpt_files demo_key "111403538"
    {| requests := [] |}
  = (Raise (JSONDecodeError ("midterm/" +:+ "111403538" +:+ ".json")),
     {| requests := [] |})
  /\ __init__ demo_midterm_files demo_bad_mygpt_files demo_key "111403538"
       {| requests := [] |}
     = (Raise (JSONDecodeError ("mygpt/" +:+ "111403538" +:+ ".json")),
        {| requests := [] |}).
Proof.
  split.
  - apply (proj1 (malformed_files demo_bad_midterm_files demo_mygpt_files demo_key
                    "111403538" {| requests := [] |})).
    vm_compute; reflexivity.
  - apply (proj2 (malformed_files demo_midterm_files demo_bad_mygpt_files demo_key
                    "111403538" {| requests := [] |}) [("recursion", "weak")]).
    + vm_compute; reflexivity.
    + vm_compute; reflexivity.
Defined.

Lemma start_process_no_choice_witness :
  start_process mute_endpoint "開始口試" demo_state
  = (Raise IndexError,
     {| self := set_conversation_history [history_header; "開始口試"] demo_generator;
        world :=
          {| requests :=
               [ {| model := "gpt-4o";
                    messages :=
                      [ {| role := "system"; content := "system" |};
                        {| role := "user";
                           content := history_header +:+ nl +:+ "開始口試" |} ];
                    temperature := 0.6%Q |} ] |} |}).
Proof.
  apply (start_process_no_choice mute_endpoint "開始口試" demo_state {| choices := [] |});
    reflexivity.
Defined.


Lemma rendering_determines_history_witness :
  conversation_history (set_conversation_history [history_header; "開始口試"] demo_generator)
  = conversation_history
      (set_conversation_history [history_header; "開始口試"] demo_constructed).
Proof.
  apply (rendering_determines_history
           (set_conversation_history [history_header; "開始口試"] demo_generator)
           (set_conversation_history [history_header; "開始口試"] demo_constructed)).
  - repeat constructor; discriminate.
  - repeat constructor; discriminate.
  - discriminate.
  - discriminate.
  - reflexivity.
Defined.

Lemma process_input_remote_failure_witness :
  process_input down_endpoint demo_app
  = (Raise (RemoteError APIConnectionError),
     {| session_state :=
          ready (set_conversation_history [history_header; "開始口試"] demo_generator)
            [("你", "開始口試")] false "開始口試" (Some "我叫王小明");
        outside :=
          {| requests :=
               [ {| model := "gpt-4o";
                    messages :=
                      [ {| role := "system"; content := "system" |};
                        {| role := "user";
                           content := history_header +:+ nl +:+ "開始口試" |} ];
                    temperature := 0.6%Q |} ] |} |}).
Proof.
  apply (process_input_remote_failure down_endpoint demo_generator [] false
           "開始口試" (Some "我叫王小明") {| requests := [] |} APIConnectionError).
  reflexivity.
Defined.

Lemma click_sends_stored_input_witness :
  fst (script demo_midterm_files demo_mygpt_files demo_key demo_endpoint true demo_app)
  = Return ["你: 開始口試"; "AI: 請先自我介紹。"].
Proof.
  apply (f_equal fst
           (click_sends_stored_input demo_midterm_files demo_mygpt_files demo_key
              demo_endpoint demo_generator [] false "開始口試" (Some "我叫王小明")
              {| requests := [] |} {| choices := [demo_choice] |} demo_choice []
              eq_refl eq_refl)).
Defined.

Lemma submit_turn_witness :
  fst (submit demo_endpoint demo_app) = Return tt
  /\ fst (submit down_endpoint demo_app) = Raise (RemoteError APIConnectionError).
Proof.
  split.
  - apply (f_equal fst
             (proj1 (submit_turn demo_endpoint demo_generator [] false "開始口試"
                       "我叫王小明" {| requests := [] |})
                {| choices := [demo_choice] |} demo_choice [] eq_refl eq_refl)).
  - apply (f_equal fst
             (proj2 (submit_turn down_endpoint demo_generator [] false "開始口試"
                       "我叫王小明" {| requests := [] |})
                APIConnectionError eq_refl)).
Defined.


Lemma chat_log_follows_history_witness :
  consistent
    (session_state
       (snd (script demo_midterm_files demo_mygpt_files demo_key demo_endpoint true
               demo_app)))
  /\ aligned (session_state (snd (submit demo_endpoint demo_app))).
Proof.
  assert (Ha : aligned (session_state demo_app)).
  { exists demo_generator, [], false, "開始口試". now split. }
  destruct (chat_log_follows_history demo_midterm_files demo_mygpt_files demo_key
              demo_endpoint demo_app (or_intror Ha)) as [Hscript Hsubmit].
  split; [exact (Hscript true) | apply (Hsubmit Ha); discriminate].
Defined.
